(** * Airport disruption messenger: the message generator

    A shallow embedding of [generate_messages], its helper [_safe], the
    static table [RULES], [EventForm.to_event], [splitflap_animate] and
    the button handlers of [AirportApp] from [airport_messenger_app.py],
    followed by their properties.

    Python values are modelled as follows.
    - [str] is [string]; a character is a code point below 256.
    - [int] is [Z].
    - A [dict] with string keys is a [gmap string _]; the event dict, whose
      keys are fixed, is a record of optional fields.
    - An exception is an [outcome] other than [Return]; the global [RULES]
      and the event dict live in a [Store] that every call threads.
    - A Tk [Text] widget is the text it holds and its state; the timers
      of [widget.after] are a list the main loop serves; the layout and
      styling of the window are not modelled. *)

From Stdlib Require Import Ascii String.
From stdpp Require Import gmap strings list fin_maps pretty.

Local Open Scope string_scope.
Local Open Scope Z_scope.

(** ** Python string operations *)

(** [str.isspace] on one character (code points 9-13, 28-32, 133, 160). *)
Definition isspace (c : ascii) : bool :=
  let n := Ascii.N_of_ascii c in
  ((9 <=? n) && (n <=? 13) || (28 <=? n) && (n <=? 32)
   || (n =? 133) || (n =? 160))%N.

Fixpoint lstrip (s : string) : string :=
  match s with
  | "" => ""
  | String c r => if isspace c then lstrip r else s
  end.

Fixpoint rstrip (s : string) : string :=
  match s with
  | "" => ""
  | String c r =>
      match rstrip r with
      | "" => if isspace c then "" else String c ""
      | r' => String c r'
      end
  end.

(** [s.strip()] *)
Definition strip (s : string) : string := rstrip (lstrip s).

Fixpoint startswith (p s : string) : bool :=
  match p, s with
  | "", _ => true
  | String a p', String b s' => if decide (a = b) then startswith p' s' else false
  | String _ _, "" => false
  end.

(** [x in s] on strings, as a program. *)
Fixpoint str_in (x s : string) : bool :=
  startswith x s || match s with "" => false | String _ r => str_in x r end.

(** [x in s] on strings, as a proposition. *)
Definition contains (x s : string) : Prop :=
  ∃ pre post : string, s = pre +:+ x +:+ post.

(** A string that [rstrip] leaves alone because it ends with a visible
    character. *)
Definition ends_visible (s : string) : Prop := rstrip s = s ∧ s ≠ "".

(** A string that [lstrip] leaves alone because it starts with a visible
    character. *)
Definition starts_visible (s : string) : Prop :=
  match s with
  | "" => False
  | String ch _ => isspace ch = false
  end.

(** [str(n)] for an [int]. *)
Definition str_of_int (n : Z) : string := pretty n.

(** [x or d] where [x] is a [str] or [None]. *)
Definition or_str (x : option string) (d : string) : string :=
  match x with
  | Some (String c r) => String c r
  | Some "" | None => d
  end.

(** ** The data *)

(** The event dict handed to the generator.  [event.get(k)] is the
    projection [k].  Each key holds a value of the type [to_event] binds it
    to: a [str] for [event_type] and [severity], a [str] or Python's [None]
    for the other display fields, an [int] for [eta_change_minutes], a list
    of [str] for [audiences]; and a key can be absent.  For [event_type] and
    [audiences] the field [None] stands for an absent key; for the other
    keys, which are only read through [event.get(k)], it stands for an
    absent key or one bound to Python's [None]. *)
Record Event := {
  event_type : option string;
  severity : option string;
  flight_no : option string;
  origin : option string;
  destination : option string;
  eta_change_minutes : option Z;
  gate : option string;
  runway : option string;
  language : option string;
  audiences : option (list string);
  notes : option string;
}.

(** The shape of the [RULES] dict: [RULES["forbidden"]] is a list and
    [RULES["event_types"]] maps an event type to a dict whose key
    ["phrases"] maps an audience to its phrases. *)
Record rules := {
  forbidden : list string;
  event_types : gmap string (gmap string (gmap string (list string)));
}.

Definition RULES : rules := {|
  forbidden :=
    ["panic"; "blame"; "speculation";
     "jargon for passengers: METAR, TAF, NOTAM"];
  event_types :=
    <["weather" := {["phrases" :=
        <["passenger" := ["due to adverse weather";
                          "your safety is our priority";
                          "we appreciate your patience"]]>
        (<["pilot" := ["expect delay due to weather in departure/arrival sector";
                       "monitor ATC advisory"]]>
        (<["staff" := ["coordinate gate and crew availability";
                       "update displays and inform gate agents"]]> ∅))]}]>
    (<["runway" := {["phrases" :=
        <["passenger" := ["runway availability constraints"]]>
        (<["pilot" := ["runway closure/restriction in effect"]]>
        (<["staff" := ["redirect ground operations"]]> ∅))]}]>
    (<["technical" := {["phrases" :=
        <["passenger" := ["aircraft requires a technical inspection";
                          "for your safety"]]>
        (<["pilot" := ["maintenance in progress; stand by for new ETD"]]>
        (<["staff" := ["dispatch maintenance team and prepare equipment"]]> ∅))]}]>
     ∅));
|}.

Definition SEVERITIES : list string := ["low"; "medium"; "high"; "critical"].

(** [list(RULES["event_types"].keys())], in insertion order. *)
Definition EVENT_TYPES : list string := ["weather"; "runway"; "technical"].

(** ** Effects: a store, exceptions *)

(** What a call can observe and could change: the module global [RULES]
    and the dict object bound to the parameter [event]. *)
Record Store := {
  st_RULES : rules;
  st_event : Event;
}.

Inductive exn := IndexError | ValueError.

Inductive outcome (A : Type) :=
  | Return (a : A)
  | Raise (e : exn).
Arguments Return {A} a.
Arguments Raise {A} e.

Definition M (A : Type) : Type := Store → outcome A * Store.

#[global] Instance M_ret : MRet M := λ A a s, (Return a, s).

#[global] Instance M_bind : MBind M := λ A B f m s,
  match m s with
  | (Return a, s') => f a s'
  | (Raise e, s') => (Raise e, s')
  end.

Definition raise {A} (e : exn) : M A := λ s, (Raise e, s).

(** [try: body except Exception: handler] *)
Definition try_except {A} (body : M A) (handler : exn → M A) : M A := λ s,
  match body s with
  | (Return a, s') => (Return a, s')
  | (Raise e, s') => handler e s'
  end.

(** Reading the global [RULES]. *)
Definition read_RULES : M rules := λ s, (Return (st_RULES s), s).

(** [event.get(key)] *)
Definition event_get {A} (key : Event → option A) : M (option A) :=
  λ s, (Return (key (st_event s)), s).

(** [event.get(key, dflt)] *)
Definition event_get_or {A} (key : Event → option A) (dflt : A) : M A :=
  λ s, (Return (default dflt (key (st_event s))), s).


(** ** The generator *)

(** The value of [lst[idx]] when there is one. *)
Definition list_item {A} (lst : list A) (idx : Z) : option A :=
  let i := if decide (idx < 0) then idx + Z.of_nat (length lst) else idx in
  if decide (0 ≤ i) then lst !! Z.to_nat i else None.

(** [lst[idx]]: a negative index counts from the end; out of range raises. *)
Definition getitem {A} (lst : list A) (idx : Z) : M A :=
  match list_item lst idx with
  | Some x => mret x
  | None => raise IndexError
  end.

(** [_safe(lst, idx, default)]; a call [_safe(lst, idx)] passes [""]. *)
Definition _safe (lst : list string) (idx : Z) (default : string) : M string :=
  try_except (getitem lst idx) (λ _, mret default).

(** [f"{eta} minutes" if eta else "TBD"] *)
Definition eta_text (eta : option Z) : string :=
  match eta with
  | Some n => if decide (n = 0) then "TBD" else str_of_int n +:+ " minutes"
  | None => "TBD"
  end.

(** The three f-strings, before [.strip()]. *)
Definition passenger_fstring (p0 flight_no dest eta_str p1 p2 gate : string) : string :=
  "Attention passengers: " +:+ p0 +:+ " "
  +:+ "affecting flight " +:+ flight_no +:+ " to " +:+ dest +:+ ". "
  +:+ "Estimated delay: " +:+ eta_str +:+ ". "
  +:+ p1 +:+ ". " +:+ p2 +:+ " "
  +:+ "Please remain near gate " +:+ gate
  +:+ " for updates. Thank you for your understanding.".

Definition pilot_fstring (p0 flight_no severity p1 runway gate eta_str notes : string) : string :=
  p0 +:+ " for " +:+ flight_no +:+ ". "
  +:+ "Severity: " +:+ severity +:+ ". " +:+ p1 +:+ " "
  +:+ "Runway: " +:+ runway +:+ ". Gate: " +:+ gate
  +:+ ". ETA change: " +:+ eta_str +:+ ". "
  +:+ "Notes: " +:+ notes +:+ ".".

Definition staff_fstring (etype severity flight_no gate runway eta_str s0 s1 : string) : string :=
  "Action required: event=" +:+ etype +:+ ", severity=" +:+ severity
  +:+ " for flight " +:+ flight_no +:+ ". "
  +:+ "- Gate: " +:+ gate +:+ ", Runway: " +:+ runway
  +:+ ", ETA change: " +:+ eta_str +:+ ". "
  +:+ "- Tasks: " +:+ s0 +:+ ", "
  +:+ s1 +:+ ". "
  +:+ "- Comms: update FIDS, inform AOCC, and document actions in the log.".

(** The body of the final loop: one audience entry of the event. *)
Definition loop_body (passenger_msg pilot_msg staff_msg : string)
    (outputs : gmap string string) (a : string) : gmap string string :=
  if decide (a = "passenger") then <[a := passenger_msg]> outputs
  else if decide (a = "pilot") then <[a := pilot_msg]> outputs
  else if decide (a = "staff") then <[a := staff_msg]> outputs
  else outputs.

Definition generate_messages : M (gmap string string) :=
  etype ← event_get_or event_type "";
  R ← read_RULES;
  let phrases := default ∅ (default ∅ (event_types R !! etype) !! "phrases") in
  let passenger_p := default [] (phrases !! "passenger") in
  let pilot_p := default [] (phrases !! "pilot") in
  let staff_p := default [] (phrases !! "staff") in

  v ← event_get flight_no; let flight_no := or_str v "N/A" in
  v ← event_get destination; let dest := or_str v "your destination" in
  v ← event_get gate; let gate := or_str v "the assigned gate" in
  v ← event_get runway; let runway := or_str v "TBD" in
  v ← event_get severity; let severity := or_str v "medium" in
  eta ← event_get eta_change_minutes;
  let eta_str := eta_text eta in
  v ← event_get notes; let notes := or_str v "N/A" in

  p0 ← _safe passenger_p 0 "an operational delay";
  p1 ← _safe passenger_p 1 "";
  p2 ← _safe passenger_p 2 "";
  let passenger_msg :=
    strip (passenger_fstring p0 flight_no dest eta_str p1 p2 gate) in

  p0 ← _safe pilot_p 0 "operational delay in effect";
  p1 ← _safe pilot_p 1 "";
  let pilot_msg :=
    strip (pilot_fstring p0 flight_no severity p1 runway gate eta_str notes) in

  s0 ← _safe staff_p 0 "coordinate impacted teams";
  s1 ← _safe staff_p 1 "notify affected parties";
  let staff_msg :=
    strip (staff_fstring etype severity flight_no gate runway eta_str s0 s1) in

  auds ← event_get_or audiences ["passenger"; "pilot"; "staff"];
  mret (foldl (loop_body passenger_msg pilot_msg staff_msg) ∅ auds).

(** ** The form the window fills in *)

Module EventForm.

Record EventForm := {
  event_type : string;
  severity : string;
  flight_no : string;
  origin : string;
  destination : string;
  eta_change_minutes : Z;
  gate : string;
  runway : string;
  notes : string;
  audience_passenger : bool;
  audience_pilot : bool;
  audience_staff : bool;
}.

(** [x or None] on a [str]. *)
Definition or_None (x : string) : option string :=
  match x with "" => None | _ => Some x end.

Definition to_event (self : EventForm) : Event :=
  let audiences : list string := [] in
  let audiences :=
    if audience_passenger self then (audiences ++ ["passenger"])%list else audiences in
  let audiences :=
    if audience_pilot self then (audiences ++ ["pilot"])%list else audiences in
  let audiences :=
    if audience_staff self then (audiences ++ ["staff"])%list else audiences in
  Build_Event
    (* event_type *) (Some (event_type self))
    (* severity *) (Some (severity self))
    (* flight_no *) (or_None (flight_no self))
    (* origin *) (or_None (origin self))
    (* destination *) (or_None (destination self))
    (* eta_change_minutes *)
      (Some (match strip (str_of_int (eta_change_minutes self)) with
             | "" => 0
             | _ => eta_change_minutes self
             end))
    (* gate *) (or_None (gate self))
    (* runway *) (or_None (runway self))
    (* language *) (Some "en")
    (* audiences *)
      (Some (match audiences with
             | [] => ["passenger"; "pilot"; "staff"]
             | _ => audiences
             end))
    (* notes *) (or_None (notes self)).

End EventForm.

(** ** What a call computes, in closed form *)

(** The phrase list the generator uses for an audience. *)
Definition phrases_of (s : Store) (audience : string) : list string :=
  default []
    (default ∅
       (default ∅
          (event_types (st_RULES s) !! default "" (event_type (st_event s)))
        !! "phrases")
     !! audience).

(** The string a call [_safe(lst, idx, dflt)] evaluates to. *)
Definition phrase_at (lst : list string) (idx : Z) (dflt : string) : string :=
  default dflt (list_item lst idx).

Definition passenger_msg (s : Store) : string :=
  let e := st_event s in
  let p := phrases_of s "passenger" in
  strip (passenger_fstring
           (phrase_at p 0 "an operational delay")
           (or_str (flight_no e) "N/A")
           (or_str (destination e) "your destination")
           (eta_text (eta_change_minutes e))
           (phrase_at p 1 "") (phrase_at p 2 "")
           (or_str (gate e) "the assigned gate")).

Definition pilot_msg (s : Store) : string :=
  let e := st_event s in
  let p := phrases_of s "pilot" in
  strip (pilot_fstring
           (phrase_at p 0 "operational delay in effect")
           (or_str (flight_no e) "N/A")
           (or_str (severity e) "medium")
           (phrase_at p 1 "")
           (or_str (runway e) "TBD")
           (or_str (gate e) "the assigned gate")
           (eta_text (eta_change_minutes e))
           (or_str (notes e) "N/A")).

Definition staff_msg (s : Store) : string :=
  let e := st_event s in
  let p := phrases_of s "staff" in
  strip (staff_fstring
           (default "" (event_type e))
           (or_str (severity e) "medium")
           (or_str (flight_no e) "N/A")
           (or_str (gate e) "the assigned gate")
           (or_str (runway e) "TBD")
           (eta_text (eta_change_minutes e))
           (phrase_at p 0 "coordinate impacted teams")
           (phrase_at p 1 "notify affected parties")).

(** The three audiences the loop knows. *)
Definition all_audiences : list string := ["passenger"; "pilot"; "staff"].

(** The audiences the final loop iterates over. *)
Definition requested (s : Store) : list string :=
  default all_audiences (audiences (st_event s)).

(** The dict the call returns. *)
Definition outputs (s : Store) : gmap string string :=
  foldl (loop_body (passenger_msg s) (pilot_msg s) (staff_msg s)) ∅
    (requested s).

(** The store a call starts from: the static table and the caller's event. *)
Definition initial (e : Event) : Store := {| st_RULES := RULES; st_event := e |}.

(** The result of a call, when it returns. *)
Definition returned {A} (r : outcome A * Store) : option A :=
  match r.1 with Return a => Some a | Raise _ => None end.

(** The message the loop stores under the key [a] of a known audience. *)
Definition pick_message (passenger_msg pilot_msg staff_msg a : string) : string :=
  if decide (a = "passenger") then passenger_msg
  else if decide (a = "pilot") then pilot_msg
  else staff_msg.

Definition message_for (s : Store) (a : string) : string :=
  pick_message (passenger_msg s) (pilot_msg s) (staff_msg s) a.

(** A display field that is absent or empty. *)
Definition blank (x : option string) : Prop := x = None ∨ x = Some "".

(** The same store with another event dict. *)
Definition with_event (e : Event) (s : Store) : Store :=
  {| st_RULES := st_RULES s; st_event := e |}.

(** The event with one key rebound. *)
Definition set_flight_no (v : option string) (e : Event) : Event :=
  Build_Event (event_type e) (severity e) v (origin e) (destination e)
    (eta_change_minutes e) (gate e) (runway e) (language e) (audiences e)
    (notes e).

Definition set_destination (v : option string) (e : Event) : Event :=
  Build_Event (event_type e) (severity e) (flight_no e) (origin e) v
    (eta_change_minutes e) (gate e) (runway e) (language e) (audiences e)
    (notes e).

Definition set_gate (v : option string) (e : Event) : Event :=
  Build_Event (event_type e) (severity e) (flight_no e) (origin e)
    (destination e) (eta_change_minutes e) v (runway e) (language e)
    (audiences e) (notes e).

Definition set_runway (v : option string) (e : Event) : Event :=
  Build_Event (event_type e) (severity e) (flight_no e) (origin e)
    (destination e) (eta_change_minutes e) (gate e) v (language e)
    (audiences e) (notes e).

Definition set_notes (v : option string) (e : Event) : Event :=
  Build_Event (event_type e) (severity e) (flight_no e) (origin e)
    (destination e) (eta_change_minutes e) (gate e) (runway e) (language e)
    (audiences e) v.

Definition set_severity (v : option string) (e : Event) : Event :=
  Build_Event (event_type e) v (flight_no e) (origin e) (destination e)
    (eta_change_minutes e) (gate e) (runway e) (language e) (audiences e)
    (notes e).

Definition set_audiences (v : option (list string)) (e : Event) : Event :=
  Build_Event (event_type e) (severity e) (flight_no e) (origin e)
    (destination e) (eta_change_minutes e) (gate e) (runway e) (language e)
    v (notes e).

(** ** Sample events *)

(** An event dict with no key at all. *)
Definition empty_event : Event :=
  Build_Event None None None None None None None None None None None.

(** The weather delay of flight AI-320 announced to passengers. *)
Definition weather_AI320 : Event := {|
  event_type := Some "weather";
  severity := None;
  flight_no := Some "AI-320";
  origin := None;
  destination := Some "BOM";
  eta_change_minutes := Some 45;
  gate := Some "A7";
  runway := None;
  language := None;
  audiences := Some ["passenger"];
  notes := None;
|}.

(** An event of a type the table does not list. *)
Definition strike_event : Event :=
  Build_Event (Some "strike") None None None None None None None None None None.

(** An event whose audience list is present and empty. *)
Definition nobody_event : Event := set_audiences (Some []) empty_event.

(** An event naming an unknown audience and one audience twice. *)
Definition noisy_event : Event :=
  set_audiences (Some ["pilot"; "press"; "pilot"]) empty_event.

(** ** More ways to rebind the store *)

Definition set_origin (v : option string) (e : Event) : Event :=
  Build_Event (event_type e) (severity e) (flight_no e) v (destination e)
    (eta_change_minutes e) (gate e) (runway e) (language e) (audiences e)
    (notes e).

Definition set_language (v : option string) (e : Event) : Event :=
  Build_Event (event_type e) (severity e) (flight_no e) (origin e)
    (destination e) (eta_change_minutes e) (gate e) (runway e) v
    (audiences e) (notes e).

Definition set_eta_change_minutes (v : option Z) (e : Event) : Event :=
  Build_Event (event_type e) (severity e) (flight_no e) (origin e)
    (destination e) v (gate e) (runway e) (language e) (audiences e)
    (notes e).

(** The same store with another list under [RULES["forbidden"]]. *)
Definition with_forbidden (l : list string) (s : Store) : Store :=
  {| st_RULES := {| forbidden := l; event_types := event_types (st_RULES s) |};
     st_event := st_event s |}.

(** The event [to_event] would build if it kept every string of the form
    as it is, without [or None]. *)
Definition event_of_form_verbatim (f : EventForm.EventForm) : Event :=
  Build_Event
    (Some (EventForm.event_type f)) (Some (EventForm.severity f))
    (Some (EventForm.flight_no f)) (Some (EventForm.origin f))
    (Some (EventForm.destination f))
    (Some (EventForm.eta_change_minutes f))
    (Some (EventForm.gate f)) (Some (EventForm.runway f)) (Some "en")
    (audiences (EventForm.to_event f))
    (Some (EventForm.notes f)).

(** ** The output panels and the split-flap animation *)

(** A Tk [Text] widget as the program uses it: the text it holds and
    whether its state is "normal".  Tk ignores [insert] and [delete] on a
    widget whose state is "disabled"; [see] only scrolls. *)
Record Text := {
  content : string;
  normal : bool;
}.

(** [widget.configure(state=...)] *)
Definition configure_state (st : bool) (widget : Text) : Text :=
  {| content := content widget; normal := st |}.

(** [widget.delete("1.0", tk.END)] *)
Definition delete_all (widget : Text) : Text :=
  if normal widget then {| content := ""; normal := true |} else widget.

(** [widget.insert(tk.END, text)] *)
Definition insert_end (text : string) (widget : Text) : Text :=
  if normal widget
  then {| content := content widget +:+ text; normal := true |}
  else widget.

(** [text[:i]] for [i >= 0]. *)
Fixpoint slice_to (i : nat) (text : string) : string :=
  match i, text with
  | S j, String c r => String c (slice_to j r)
  | _, _ => ""
  end.

Definition newline : string := String (ascii_of_nat 10) "".
Definition tab : string := String (ascii_of_nat 9) "".

(** A timer set by [widget.after(pause, lambda: step(i))]: the pause in
    milliseconds and the argument of the call it will make. *)
Definition timer : Type := Z * nat.

(** The inner function [step(i)] of [splitflap_animate]: the widget after
    the call and the timer the call has set, if any. *)
Definition step (text : string) (delay_ms : Z) (i : nat) (widget : Text)
  : outcome (Text * option timer) :=
  if decide (String.length text < i)%nat then
    Return (configure_state false widget, None)
  else
    let current_text := slice_to i text in
    let widget := delete_all widget in
    let widget := insert_end current_text widget in
    match (match i with
           | O => Some ""
           | S j => (λ c, String c "") <$> String.get j text
           end) with
    | None => Raise IndexError
    | Some ch =>
        let pause :=
          delay_ms * (if bool_decide (ch ∈ [" "; newline; tab]) then 3 else 1) in
        Return (widget, Some (pause, S i))
    end.

Definition splitflap_animate (widget : Text) (text : string) (delay_ms : Z)
  : outcome (Text * option timer) :=
  let widget := configure_state true widget in
  let widget := delete_all widget in
  step text delay_ms 0 widget.

(** The Tk main loop serving one widget: it waits for the pending timer,
    makes the call, and goes on with the timer that call has set.  The
    result lists, for each call made, the pause waited before it and the
    text shown after it.  [None] means the fuel ran out. *)
Fixpoint run_timers (fuel : nat) (text : string) (delay_ms : Z)
    (widget : Text) (pending : option timer)
  : option (outcome (Text * list (Z * string))) :=
  match pending with
  | None => Some (Return (widget, []))
  | Some (pause, i) =>
      match fuel with
      | O => None
      | S fuel' =>
          match step text delay_ms i widget with
          | Raise e => Some (Raise e)
          | Return (widget', pending') =>
              match run_timers fuel' text delay_ms widget' pending' with
              | Some (Return (final, frames)) =>
                  Some (Return (final, (pause, content widget') :: frames))
              | r => r
              end
          end
      end
  end.

(** A whole animation: the call of [splitflap_animate] and then the main
    loop until no timer is pending. *)
Definition animation (fuel : nat) (widget : Text) (text : string) (delay_ms : Z)
  : option (outcome (Text * list (Z * string))) :=
  match splitflap_animate widget text delay_ms with
  | Raise e => Some (Raise e)
  | Return (widget', pending) => run_timers fuel text delay_ms widget' pending
  end.

(** The number of spaces, newlines and tabs of a string. *)
Fixpoint count_flips (text : string) : nat :=
  match text with
  | "" => 0
  | String c r =>
      ((if bool_decide (String c "" ∈ [" "; newline; tab]) then 1 else 0)
       + count_flips r)%nat
  end.

(** The frames the main loop shows from a point where [shown] is on the
    widget, [rest] is still to come and a timer of [pause] is pending. *)
Fixpoint frames_from (delay_ms pause : Z) (shown rest : string)
  : list (Z * string) :=
  match rest with
  | "" => [(pause, shown)]
  | String c r =>
      (pause, shown +:+ String c "")
      :: frames_from delay_ms
           (delay_ms
            * (if bool_decide (String c "" ∈ [" "; newline; tab]) then 3 else 1))
           (shown +:+ String c "") r
  end.

(** ** The window *)

(** The three output panels [out_passenger], [out_pilot], [out_staff]. *)
Inductive panel := Passenger | Pilot | Staff.

#[global] Instance panel_eq_dec : EqDecision panel.
Proof. solve_decision. Defined.

(** A call [widget.after(pause, lambda: step(i))] that has not been made
    yet: the pause asked for, and what the closure holds (the widget, the
    text, the delay) with the argument of the call. *)
Record Timer := {
  t_pause : Z;
  t_panel : panel;
  t_text : string;
  t_delay_ms : Z;
  t_index : nat;
}.

Module AirportApp.

(** What the Tk variables of the window hold. *)
Record Vars := {
  event_type : string;
  severity : string;
  flight_no : string;
  origin : string;
  destination : string;
  eta_change : string;
  gate : string;
  runway : string;
  notes : string;
  aud_passenger : bool;
  aud_pilot : bool;
  aud_staff : bool;
  instant_mode : bool;
  animated_mode : bool;
}.

(** The window: its variables, its three panels, the timers Tk holds for
    it and the titles of the error dialogs it has shown. *)
Record AirportApp := {
  vars : Vars;
  out_passenger : Text;
  out_pilot : Text;
  out_staff : Text;
  pending : list Timer;
  errors_shown : list string;
}.

(** Code of the window: a result or an exception, and the window after. *)
Definition UI (A : Type) : Type := AirportApp → outcome A * AirportApp.

#[global] Instance UI_ret : MRet UI := λ A a self, (Return a, self).

#[global] Instance UI_bind : MBind UI := λ A B f m self,
  match m self with
  | (Return a, self') => f a self'
  | (Raise e, self') => (Raise e, self')
  end.

Definition widget_of (p : panel) (self : AirportApp) : Text :=
  match p with
  | Passenger => out_passenger self
  | Pilot => out_pilot self
  | Staff => out_staff self
  end.

Definition with_widget (p : panel) (w : Text) (self : AirportApp) : AirportApp :=
  match p with
  | Passenger =>
      Build_AirportApp (vars self) w (out_pilot self) (out_staff self)
        (pending self) (errors_shown self)
  | Pilot =>
      Build_AirportApp (vars self) (out_passenger self) w (out_staff self)
        (pending self) (errors_shown self)
  | Staff =>
      Build_AirportApp (vars self) (out_passenger self) (out_pilot self) w
        (pending self) (errors_shown self)
  end.

Definition with_pending (l : list Timer) (self : AirportApp) : AirportApp :=
  Build_AirportApp (vars self) (out_passenger self) (out_pilot self)
    (out_staff self) l (errors_shown self).

(** An operation on one widget, made on the panel [p] of the window: the
    widget it leaves is put back, the timer it sets is handed to Tk. *)
Definition on_panel (p : panel) (text : string) (delay_ms : Z)
    (op : Text → outcome (Text * option timer)) : UI unit := λ self,
  match op (widget_of p self) with
  | Raise e => (Raise e, self)
  | Return (w, None) => (Return tt, with_widget p w self)
  | Return (w, Some (pause, i)) =>
      let self := with_widget p w self in
      (Return tt,
       with_pending
         (pending self
          ++ [{| t_pause := pause; t_panel := p; t_text := text;
                 t_delay_ms := delay_ms; t_index := i |}])%list
         self)
  end.

(** [form_data].  The built-in [int] is a parameter: [None] stands for its
    [ValueError]. *)
Definition form_data (int : string → option Z) : UI EventForm.EventForm :=
  λ self,
  let v := vars self in
  match (match eta_change v with
         | "" => Some 0
         | entry => int entry
         end) with
  | None => (Raise ValueError, self)
  | Some eta =>
      (Return
         (EventForm.Build_EventForm
            (event_type v) (severity v) (flight_no v) (origin v)
            (destination v) eta (gate v) (runway v) (notes v)
            (aud_passenger v) (aud_pilot v) (aud_staff v)),
       self)
  end.

(** The inner function [set_text] of [on_generate]. *)
Definition set_text (p : panel) (text : string) : UI unit := λ self,
  if animated_mode (vars self) then
    let delay_ms := if instant_mode (vars self) then 10 else 25 in
    on_panel p text delay_ms
      (λ widget, splitflap_animate widget text delay_ms) self
  else
    let widget := widget_of p self in
    let widget := configure_state true widget in
    let widget := delete_all widget in
    let widget := insert_end text widget in
    (Return tt, with_widget p (configure_state false widget) self).

(** [on_generate].  [form_data] is called before the [try]; a call of
    [generate_messages] that raises shows an error dialog and returns. *)
Definition on_generate (int : string → option Z) : UI unit :=
  form ← form_data int;
  let event := EventForm.to_event form in
  match (generate_messages (initial event)).1 with
  | Raise e =>
      λ self,
      (Return tt,
       Build_AirportApp (vars self) (out_passenger self) (out_pilot self)
         (out_staff self) (pending self) (errors_shown self ++ ["Error"])%list)
  | Return msgs =>
      set_text Passenger (default "" (msgs !! "passenger"));;
      set_text Pilot (default "" (msgs !! "pilot"));;
      set_text Staff (default "" (msgs !! "staff"))
  end.

(** [on_clear] *)
Definition on_clear : UI unit := λ self,
  let clear t := configure_state false (delete_all (configure_state true t)) in
  (Return tt,
   Build_AirportApp (vars self) (clear (out_passenger self))
     (clear (out_pilot self)) (clear (out_staff self)) (pending self)
     (errors_shown self)).

(** The main loop making the call of the [k]-th pending timer.  [None]:
    there is no such timer. *)
Definition fire (k : nat) (self : AirportApp)
  : option (outcome unit * AirportApp) :=
  match pending self !! k with
  | None => None
  | Some t =>
      Some (on_panel (t_panel t) (t_text t) (t_delay_ms t)
              (step (t_text t) (t_delay_ms t) (t_index t))
              (with_pending (delete k (pending self)) self))
  end.

(** The main loop making the calls of the pending timers in the order
    [sched] gives, up to the first call that raises. *)
Fixpoint run (sched : list nat) (self : AirportApp)
  : option (outcome unit * AirportApp) :=
  match sched with
  | [] => Some (Return tt, self)
  | k :: rest =>
      match fire k self with
      | None => None
      | Some (Return _, self') => run rest self'
      | Some (Raise e, self') => Some (Raise e, self')
      end
  end.

End AirportApp.

(** The timers of a list that belong to the panel [p]. *)
Definition timers_for (p : panel) (l : list Timer) : list Timer :=
  filter (λ t, t_panel t = p) l.

(** The calls a pending timer and its successors still have to make. *)
Definition calls_left (t : Timer) : nat :=
  S (S (String.length (t_text t))) - t_index t.

Definition all_calls_left (l : list Timer) : nat :=
  foldr (λ t n, (calls_left t + n)%nat) 0%nat l.

(** A panel on its way to showing [text]: either one animation is under
    way on it, with one pending timer and a prefix of the text on the
    widget, or the panel is at rest, read-only, with the whole text. *)
Definition panel_settling (text : string) (delay_ms : Z) (p : panel)
    (self : AirportApp.AirportApp) : Prop :=
  (∃ pause i,
      (1 ≤ i ≤ S (String.length text))%nat
      ∧ timers_for p (AirportApp.pending self)
        = [{| t_pause := pause; t_panel := p; t_text := text;
              t_delay_ms := delay_ms; t_index := i |}]
      ∧ AirportApp.widget_of p self
        = {| content := slice_to (i - 1) text; normal := true |})
  ∨ (timers_for p (AirportApp.pending self) = []
     ∧ AirportApp.widget_of p self = {| content := text; normal := false |}).

(** The window on its way to showing [target p] on each panel [p]. *)
Definition settling (target : panel → string) (delay_ms : Z)
    (self : AirportApp.AirportApp) : Prop :=
  ∀ p, panel_settling (target p) delay_ms p self.

(** The key of a panel's audience in the dict of the generator. *)
Definition audience_of (p : panel) : string :=
  match p with
  | Passenger => "passenger"
  | Pilot => "pilot"
  | Staff => "staff"
  end.

(** ** Sample windows *)

(** The window as it first opens, with only the pilot box ticked, the ETA
    entry [eta], and panels that hold stale text. *)
Definition stale_window (eta : string) (animated : bool) : AirportApp.AirportApp := {|
  AirportApp.vars := {|
    AirportApp.event_type := "weather";
    AirportApp.severity := "medium";
    AirportApp.flight_no := "AI-320";
    AirportApp.origin := "DEL";
    AirportApp.destination := "BOM";
    AirportApp.eta_change := eta;
    AirportApp.gate := "A7";
    AirportApp.runway := "09R";
    AirportApp.notes := "Thunderstorm cells near departure path";
    AirportApp.aud_passenger := false;
    AirportApp.aud_pilot := true;
    AirportApp.aud_staff := false;
    AirportApp.instant_mode := true;
    AirportApp.animated_mode := animated;
  |};
  AirportApp.out_passenger := {| content := "old passenger text"; normal := false |};
  AirportApp.out_pilot := {| content := "old pilot text"; normal := false |};
  AirportApp.out_staff := {| content := "old staff text"; normal := false |};
  AirportApp.pending := [];
  AirportApp.errors_shown := [];
|}.

(** An [int] that rejects every string, for windows whose ETA entry is
    empty or not a numeral. *)
Definition int_rejects : string → option Z := λ _, None.

(** * Properties *)

(** ** Strings *)

Section strings.
Implicit Types a b c x s t : string.
Implicit Types ch : ascii.

Lemma append_empty_l a : "" +:+ a = a.
Proof. reflexivity. Qed.

Lemma append_cons ch a b : String ch a +:+ b = String ch (a +:+ b).
Proof. reflexivity. Qed.

Lemma append_assoc a b c : (a +:+ b) +:+ c = a +:+ b +:+ c.
Proof.
  induction a as [|ch a IH]; [done |].
  by rewrite !append_cons, IH.
Qed.

Lemma append_empty_r a : a +:+ "" = a.
Proof.
  induction a as [|ch a IH]; [done |].
  by rewrite append_cons, IH.
Qed.

Lemma append_not_empty_r a b : b ≠ "" → a +:+ b ≠ "".
Proof. destruct a; [done | discriminate]. Qed.

Lemma contains_refl x : contains x x.
Proof. exists "", "". by rewrite append_empty_r. Qed.

Lemma contains_here x b : contains x (x +:+ b).
Proof. by exists "", b. Qed.

Lemma contains_app_r x a s : contains x s → contains x (a +:+ s).
Proof.
  intros (pre & post & ->). exists (a +:+ pre), post.
  by rewrite append_assoc.
Qed.

Lemma contains_app_l x s b : contains x s → contains x (s +:+ b).
Proof.
  intros (pre & post & ->). exists pre, (post +:+ b).
  by rewrite !append_assoc.
Qed.

Lemma contains_cons x ch s : contains x s → contains x (String ch s).
Proof. apply (contains_app_r x (String ch "")). Qed.

Lemma contains_not_empty x s : contains x s → x ≠ "" → s ≠ "".
Proof.
  intros (pre & post & ->) Hx.
  apply append_not_empty_r. destruct x; [done | discriminate].
Qed.

Lemma startswith_sound x s : startswith x s = true → ∃ post, s = x +:+ post.
Proof.
  revert s. induction x as [|ch x IH]; intros s H.
  - by exists s.
  - destruct s as [|ch' s]; [done |]. simpl in H.
    case_decide; [subst ch' | done].
    destruct (IH _ H) as (post & ->). by exists post.
Qed.

Lemma startswith_complete x post : startswith x (x +:+ post) = true.
Proof.
  induction x as [|ch x IH]; [done |].
  rewrite append_cons. simpl. by case_decide.
Qed.

(** The program [str_in] decides [contains]. *)
Lemma str_in_sound x s : str_in x s = true → contains x s.
Proof.
  induction s as [|ch s IH]; simpl; intros H.
  - rewrite orb_false_r in H.
    destruct (startswith_sound _ _ H) as (post & ->). apply contains_here.
  - apply orb_true_iff in H as [H | H].
    + destruct (startswith_sound _ _ H) as (post & ->). apply contains_here.
    + by apply contains_cons, IH.
Qed.

Lemma str_in_complete x s : contains x s → str_in x s = true.
Proof.
  intros (pre & post & ->).
  induction pre as [|ch pre IH].
  - rewrite append_empty_l.
    pose proof (startswith_complete x post) as H.
    destruct (x +:+ post); simpl; by rewrite H.
  - rewrite append_cons. simpl. rewrite IH. apply orb_true_r.
Qed.

Lemma ends_visible_app a s : ends_visible s → ends_visible (a +:+ s).
Proof.
  intros [Hs Hne]. split; [| by apply append_not_empty_r].
  induction a as [|ch a IH]; [done |].
  rewrite append_cons. simpl. rewrite IH.
  destruct (a +:+ s) eqn:E; [| done].
  by apply (append_not_empty_r a) in Hne.
Qed.

Lemma lstrip_visible ch s : isspace ch = false → lstrip (String ch s) = String ch s.
Proof. intros H. simpl. by rewrite H. Qed.

(** [lstrip] never eats into what follows a visible character. *)
Lemma lstrip_app_visible a ch s :
  isspace ch = false → ∃ a', lstrip (a +:+ String ch s) = a' +:+ String ch s.
Proof.
  intros H. induction a as [|c0 a [a' IH]].
  - exists "". by rewrite !append_empty_l, lstrip_visible.
  - rewrite append_cons. simpl.
    destruct (isspace c0); [by exists a' | by exists (String c0 a)].
Qed.

(** A string framed by visible characters is its own [strip]. *)
Lemma strip_framed ch s :
  isspace ch = false → ends_visible s → strip (String ch s) = String ch s.
Proof.
  intros Hch Hs. unfold strip. rewrite lstrip_visible by done.
  by apply (ends_visible_app (String ch "") s).
Qed.

(** Stripping keeps everything from a visible character on, when the
    string ends with a visible character. *)
Lemma strip_app_visible a ch s :
  isspace ch = false → ends_visible s →
  ∃ a', strip (a +:+ String ch s) = a' +:+ String ch s.
Proof.
  intros Hch Hs. unfold strip.
  destruct (lstrip_app_visible a ch s Hch) as [a' ->]. exists a'.
  pose proof (ends_visible_app (a' +:+ String ch "") s Hs) as [H _].
  by rewrite append_assoc in H.
Qed.
End strings.

Lemma strip_keep a s :
  starts_visible a → ends_visible s → strip (a +:+ s) = a +:+ s.
Proof.
  destruct a as [|ch a]; [done |]. simpl. intros Hch Hs.
  rewrite append_cons. apply strip_framed; [done |].
  by apply ends_visible_app.
Qed.

Lemma strip_after_space a ch s :
  isspace ch = false → ends_visible s →
  ∃ a', strip (a +:+ String " " (String ch s)) = a' +:+ String ch s.
Proof.
  intros Hch Hs.
  destruct (strip_app_visible (a +:+ " ") ch s Hch Hs) as [a' H].
  exists a'. by rewrite append_assoc in H.
Qed.

Lemma or_str_blank x d : blank x → or_str x d = d.
Proof. by intros [-> | ->]. Qed.

Lemma or_str_given x d : x ≠ "" → or_str (Some x) d = x.
Proof. by destruct x. Qed.

(** ** Running the program *)

Lemma list_item_beyond {A} (lst : list A) idx :
  Z.of_nat (length lst) ≤ idx → list_item lst idx = None.
Proof.
  intros H. unfold list_item.
  destruct (decide (idx < 0)); [lia |].
  destruct (decide (0 ≤ idx)); [| done].
  apply lookup_ge_None. lia.
Qed.

Lemma list_item_within {A} (lst : list A) idx :
  0 ≤ idx < Z.of_nat (length lst) → list_item lst idx = lst !! Z.to_nat idx.
Proof.
  intros H. unfold list_item.
  destruct (decide (idx < 0)); [lia |].
  by destruct (decide (0 ≤ idx)); [| lia].
Qed.

Lemma _safe_run lst idx dflt s :
  _safe lst idx dflt s = (Return (phrase_at lst idx dflt), s).
Proof.
  unfold _safe, try_except, getitem, phrase_at.
  by destruct (list_item lst idx).
Qed.

Lemma generate_messages_run s : generate_messages s = (Return (outputs s), s).
Proof.
  unfold generate_messages, mbind, M_bind, event_get, event_get_or, read_RULES.
  cbn beta iota. by rewrite !_safe_run.
Qed.

Lemma returned_generate_messages s :
  returned (generate_messages s) = Some (outputs s).
Proof. by rewrite generate_messages_run. Qed.

(** ** The three messages *)

Ltac visible_end :=
  repeat apply ends_visible_app; split; [reflexivity | discriminate].

(** [.strip()] changes neither the passenger nor the staff message. *)
Lemma passenger_msg_unfold s :
  passenger_msg s =
  passenger_fstring
    (phrase_at (phrases_of s "passenger") 0 "an operational delay")
    (or_str (flight_no (st_event s)) "N/A")
    (or_str (destination (st_event s)) "your destination")
    (eta_text (eta_change_minutes (st_event s)))
    (phrase_at (phrases_of s "passenger") 1 "")
    (phrase_at (phrases_of s "passenger") 2 "")
    (or_str (gate (st_event s)) "the assigned gate").
Proof.
  unfold passenger_msg, passenger_fstring; cbn zeta.
  apply strip_keep; [reflexivity | visible_end].
Qed.

Lemma staff_msg_unfold s :
  staff_msg s =
  staff_fstring
    (default "" (event_type (st_event s)))
    (or_str (severity (st_event s)) "medium")
    (or_str (flight_no (st_event s)) "N/A")
    (or_str (gate (st_event s)) "the assigned gate")
    (or_str (runway (st_event s)) "TBD")
    (eta_text (eta_change_minutes (st_event s)))
    (phrase_at (phrases_of s "staff") 0 "coordinate impacted teams")
    (phrase_at (phrases_of s "staff") 1 "notify affected parties").
Proof.
  unfold staff_msg, staff_fstring; cbn zeta.
  apply strip_keep; [reflexivity | visible_end].
Qed.

(** [.strip()] can only shorten the opening phrase of the pilot message. *)
Lemma pilot_msg_unfold s :
  ∃ p0',
    pilot_msg s =
    p0' +:+ "for " +:+ or_str (flight_no (st_event s)) "N/A" +:+ ". "
    +:+ "Severity: " +:+ or_str (severity (st_event s)) "medium" +:+ ". "
    +:+ phrase_at (phrases_of s "pilot") 1 "" +:+ " "
    +:+ "Runway: " +:+ or_str (runway (st_event s)) "TBD"
    +:+ ". Gate: " +:+ or_str (gate (st_event s)) "the assigned gate"
    +:+ ". ETA change: " +:+ eta_text (eta_change_minutes (st_event s)) +:+ ". "
    +:+ "Notes: " +:+ or_str (notes (st_event s)) "N/A" +:+ ".".
Proof.
  unfold pilot_msg, pilot_fstring; cbn zeta.
  match goal with
  | |- ∃ _, strip (?p0 +:+ " for " +:+ ?r) = _ =>
      destruct (strip_after_space p0 "f" ("or " +:+ r)) as [p0' H];
        [reflexivity | visible_end | exists p0'; exact H]
  end.
Qed.

(** The pilot message of a phrase that starts with a visible character is
    not changed by [.strip()] either. *)
Lemma pilot_msg_unfold_visible s :
  starts_visible (phrase_at (phrases_of s "pilot") 0 "operational delay in effect") →
  pilot_msg s =
  pilot_fstring
    (phrase_at (phrases_of s "pilot") 0 "operational delay in effect")
    (or_str (flight_no (st_event s)) "N/A")
    (or_str (severity (st_event s)) "medium")
    (phrase_at (phrases_of s "pilot") 1 "")
    (or_str (runway (st_event s)) "TBD")
    (or_str (gate (st_event s)) "the assigned gate")
    (eta_text (eta_change_minutes (st_event s)))
    (or_str (notes (st_event s)) "N/A").
Proof.
  intros H. unfold pilot_msg, pilot_fstring; cbn zeta.
  apply strip_keep; [done | visible_end].
Qed.

(** Each message contains the fields its f-string interpolates. *)

Ltac segment :=
  solve [ repeat first
            [ apply contains_here | apply contains_refl | apply contains_app_r ] ].

Lemma passenger_msg_contains s :
  let e := st_event s in
  contains (or_str (flight_no e) "N/A") (passenger_msg s)
  ∧ contains (or_str (destination e) "your destination") (passenger_msg s)
  ∧ contains (eta_text (eta_change_minutes e)) (passenger_msg s)
  ∧ contains (or_str (gate e) "the assigned gate") (passenger_msg s).
Proof.
  cbn zeta. rewrite passenger_msg_unfold. unfold passenger_fstring.
  repeat split; segment.
Qed.

Lemma pilot_msg_contains s :
  let e := st_event s in
  contains (or_str (flight_no e) "N/A") (pilot_msg s)
  ∧ contains (or_str (severity e) "medium") (pilot_msg s)
  ∧ contains (or_str (runway e) "TBD") (pilot_msg s)
  ∧ contains (or_str (gate e) "the assigned gate") (pilot_msg s)
  ∧ contains (eta_text (eta_change_minutes e)) (pilot_msg s)
  ∧ contains (or_str (notes e) "N/A") (pilot_msg s).
Proof.
  cbn zeta. destruct (pilot_msg_unfold s) as [p0' ->].
  repeat split; segment.
Qed.

Lemma staff_msg_contains s :
  let e := st_event s in
  contains (default "" (event_type e)) (staff_msg s)
  ∧ contains (or_str (severity e) "medium") (staff_msg s)
  ∧ contains (or_str (flight_no e) "N/A") (staff_msg s)
  ∧ contains (or_str (gate e) "the assigned gate") (staff_msg s)
  ∧ contains (or_str (runway e) "TBD") (staff_msg s)
  ∧ contains (eta_text (eta_change_minutes e)) (staff_msg s).
Proof.
  cbn zeta. rewrite staff_msg_unfold. unfold staff_fstring.
  repeat split; segment.
Qed.

(** The fields every message interpolates. *)
Lemma message_for_contains s a :
  let e := st_event s in
  contains (or_str (flight_no e) "N/A") (message_for s a)
  ∧ contains (or_str (gate e) "the assigned gate") (message_for s a)
  ∧ contains (eta_text (eta_change_minutes e)) (message_for s a).
Proof.
  cbn zeta. unfold message_for, pick_message.
  destruct (passenger_msg_contains s) as (? & ? & ? & ?).
  destruct (pilot_msg_contains s) as (? & ? & ? & ? & ? & ?).
  destruct (staff_msg_contains s) as (? & ? & ? & ? & ? & ?).
  repeat case_decide; done.
Qed.

(** ** The final loop *)

Lemma all_audiences_spec k :
  k ∈ all_audiences ↔ k = "passenger" ∨ k = "pilot" ∨ k = "staff".
Proof. unfold all_audiences. rewrite !elem_of_cons, elem_of_nil. tauto. Qed.

Section loop.
Variables passenger_msg pilot_msg staff_msg : string.

Local Abbreviation body := (loop_body passenger_msg pilot_msg staff_msg).
Local Abbreviation pick := (pick_message passenger_msg pilot_msg staff_msg).

(** One iteration binds the key of a known audience and nothing else. *)
Lemma loop_body_lookup (acc : gmap string string) (a k : string) :
  body acc a !! k =
  if decide (a = k ∧ k ∈ all_audiences) then Some (pick k) else acc !! k.
Proof.
  unfold loop_body, pick_message.
  destruct (decide (a = k ∧ k ∈ all_audiences)) as [[-> H]|H].
  - apply all_audiences_spec in H as [-> | [-> | ->]]; by simplify_map_eq.
  - rewrite all_audiences_spec in H.
    repeat case_decide; subst; try done;
      rewrite lookup_insert_ne; try done; intros <-; apply H; tauto.
Qed.

Lemma loop_lookup (l : list string) (acc : gmap string string) (k : string) :
  foldl body acc l !! k =
  if decide (k ∈ l ∧ k ∈ all_audiences) then Some (pick k) else acc !! k.
Proof.
  revert acc. induction l as [|a l IH]; intros acc; cbn [foldl].
  - rewrite decide_False; [done |]. intros [H _]. by apply elem_of_nil in H.
  - rewrite IH, loop_body_lookup.
    destruct (decide (k ∈ l ∧ k ∈ all_audiences)) as [[H1 H2]|H1].
    + rewrite decide_True; [done |]. split; [by right | done].
    + destruct (decide (a = k ∧ k ∈ all_audiences)) as [[-> H2]|H2].
      * rewrite decide_True; [done |]. split; [by left | done].
      * rewrite decide_False; [done |]. rewrite elem_of_cons.
        intros [[-> | ?] ?]; [apply H2 | apply H1]; done.
Qed.
End loop.

Lemma outputs_lookup s k :
  outputs s !! k =
  if decide (k ∈ requested s ∧ k ∈ all_audiences)
  then Some (message_for s k) else None.
Proof. unfold outputs. by rewrite loop_lookup, lookup_empty. Qed.

Lemma outputs_requested s a :
  a ∈ requested s → a ∈ all_audiences → outputs s !! a = Some (message_for s a).
Proof. intros. rewrite outputs_lookup. by rewrite decide_True. Qed.

Lemma outputs_present s a :
  a ∈ all_audiences → a ∈ requested s → is_Some (outputs s !! a).
Proof. intros Ha Hreq. rewrite outputs_requested by done. by eexists. Qed.

Lemma outputs_Some s a m :
  outputs s !! a = Some m →
  a ∈ requested s ∧ a ∈ all_audiences ∧ m = message_for s a.
Proof.
  rewrite outputs_lookup. case_decide as H; [| done].
  destruct H. intros [= <-]. done.
Qed.

Lemma outputs_None s a :
  ¬ (a ∈ requested s ∧ a ∈ all_audiences) → outputs s !! a = None.
Proof. intros. rewrite outputs_lookup. by rewrite decide_False. Qed.

Lemma dom_outputs s :
  dom (outputs s) =
  list_to_set (filter (λ a, a ∈ all_audiences) (requested s)).
Proof.
  apply set_eq. intros k.
  rewrite elem_of_dom, elem_of_list_to_set, list_elem_of_filter, outputs_lookup.
  case_decide as H; split.
  - tauto.
  - by eexists.
  - by intros [? ?].
  - tauto.
Qed.

(** The messages do not depend on which audiences are requested. *)
Lemma message_for_set_audiences s v a :
  message_for (with_event (set_audiences v (st_event s)) s) a = message_for s a.
Proof. reflexivity. Qed.

Lemma requested_set_audiences s l :
  requested (with_event (set_audiences (Some l) (st_event s)) s) = l.
Proof. reflexivity. Qed.

(** Two audience lists with the same known members give the same dict. *)
Lemma outputs_set_audiences s l :
  (∀ a, a ∈ all_audiences → (a ∈ l ↔ a ∈ requested s)) →
  outputs (with_event (set_audiences (Some l) (st_event s)) s) = outputs s.
Proof.
  intros H. apply map_eq. intros k.
  rewrite !outputs_lookup, requested_set_audiences, message_for_set_audiences.
  destruct (decide (k ∈ requested s ∧ k ∈ all_audiences)) as [[H1 H2]|H1].
  - rewrite decide_True; [done |]. split; [by apply H | done].
  - rewrite decide_False; [done |]. intros [H2 H3]. apply H1.
    split; [by apply H | done].
Qed.

(** ** The claims *)

(** C1 (as stated, refuted): an event whose audience list is present and
    empty gets an empty dict back, not one with the three keys. *)
Lemma empty_audience_list_gives_no_keys :
  audiences nobody_event = Some []
  ∧ ∃ out,
      generate_messages (initial nobody_event) = (Return out, initial nobody_event)
      ∧ ("passenger" ∉ dom out) ∧ ("pilot" ∉ dom out) ∧ ("staff" ∉ dom out).
Proof.
  split; [reflexivity |]. exists ∅.
  split; [by rewrite generate_messages_run |].
  rewrite dom_empty_L. repeat split; apply not_elem_of_empty.
Qed.

(** C1 (amended): when the audiences the event lists are among passenger,
    pilot and staff, the dict returned has exactly the listed audiences as
    keys, each bound to its message, and no other key; when the event has
    no audiences key, the dict has all three keys. *)
Theorem generate_messages_keys s :
  requested s ⊆ all_audiences →
  ∃ out,
    generate_messages s = (Return out, s)
    ∧ dom out = list_to_set (requested s)
    ∧ (∀ a, a ∈ requested s → out !! a = Some (message_for s a))
    ∧ (∀ a, a ∉ requested s → out !! a = None)
    ∧ (audiences (st_event s) = None →
       dom out = {["passenger"; "pilot"; "staff"]}).
Proof.
  intros Hsub. exists (outputs s).
  split; [apply generate_messages_run |].
  assert (dom (outputs s) = list_to_set (requested s)) as Hdom.
  { rewrite dom_outputs. f_equal.
    induction (requested s) as [|a l IH]; [done |].
    rewrite filter_cons_True by (apply Hsub; left).
    f_equal. apply IH. intros x Hx. apply Hsub. by right. }
  split; [done |]. split; [| split].
  - intros a Ha. apply outputs_requested; [done | by apply Hsub].
  - intros a Ha. apply outputs_None. tauto.
  - intros Habs. rewrite Hdom. unfold requested. rewrite Habs. simpl.
    unfold all_audiences. simpl. by rewrite (right_id_L ∅ (∪)), !(assoc_L (∪)).
Qed.

Lemma generate_messages_keys_witness :
  requested (initial weather_AI320) ⊆ all_audiences
  ∧ ∃ out,
      generate_messages (initial weather_AI320) = (Return out, initial weather_AI320)
      ∧ dom out = {["passenger"]}.
Proof.
  assert (requested (initial weather_AI320) ⊆ all_audiences) as H.
  { intros a Ha. apply list_elem_of_singleton in Ha as ->. by left. }
  split; [exact H |].
  destruct (generate_messages_keys (initial weather_AI320) H)
    as (out & Hrun & Hdom & _).
  exists out. split; [exact Hrun |].
  rewrite Hdom. simpl. apply (right_id_L ∅ (∪)).
Defined.

(** An event built by the form always lists at least one audience: with
    no box ticked the dict has the three keys. *)
Lemma to_event_no_box_ticked (f : EventForm.EventForm) :
  EventForm.audience_passenger f = false →
  EventForm.audience_pilot f = false →
  EventForm.audience_staff f = false →
  ∃ out,
    generate_messages (initial (EventForm.to_event f))
    = (Return out, initial (EventForm.to_event f))
    ∧ dom out = {["passenger"; "pilot"; "staff"]}.
Proof.
  intros H1 H2 H3. exists (outputs (initial (EventForm.to_event f))).
  split; [apply generate_messages_run |].
  rewrite dom_outputs. unfold requested, EventForm.to_event. simpl.
  rewrite H1, H2, H3. simpl.
  by rewrite (right_id_L ∅ (∪)), !(assoc_L (∪)).
Qed.

Lemma size_three_keys (X : gset string) :
  X ⊆ {["passenger"; "pilot"; "staff"]} → (size X ≤ 3)%nat.
Proof.
  intros H. etrans; [apply (subseteq_size _ _ H) |].
  rewrite !size_union_alt.
  etrans.
  { apply Nat.add_le_mono; [apply Nat.add_le_mono; [reflexivity |] |];
      apply subseteq_size, subseteq_difference_l; reflexivity. }
  by rewrite !size_singleton.
Qed.

(** C10: the keys of the dict returned are among passenger, pilot and
    staff; any other entry of the audience list is skipped (no key, no
    exception, and the same dict as without it); an audience listed several
    times gets one key (the same dict as when listed once). *)
Theorem generate_messages_known_keys_only s :
  ∃ out,
    generate_messages s = (Return out, s)
    ∧ dom out ⊆ {["passenger"; "pilot"; "staff"]}
    ∧ (∀ a, a ∉ all_audiences → out !! a = None)
    ∧ returned (generate_messages
        (with_event
           (set_audiences
              (Some (filter (λ a, a ∈ all_audiences) (requested s)))
              (st_event s)) s)) = Some out
    ∧ returned (generate_messages
        (with_event
           (set_audiences (Some (remove_dups (requested s))) (st_event s)) s))
      = Some out
    ∧ NoDup (map_to_list out).*1
    ∧ (size out ≤ 3)%nat.
Proof.
  exists (outputs s). split; [apply generate_messages_run |].
  assert (dom (outputs s) ⊆ {["passenger"; "pilot"; "staff"]}) as Hdom.
  { intros k Hk. apply elem_of_dom in Hk as [m Hm].
    apply outputs_Some in Hm as (_ & Hk & _).
    apply all_audiences_spec in Hk. rewrite !elem_of_union, !elem_of_singleton.
    tauto. }
  split; [done |]. split; [| split; [| split; [| split]]].
  - intros a Ha. apply outputs_None. tauto.
  - rewrite returned_generate_messages. f_equal.
    apply outputs_set_audiences. intros a Ha.
    rewrite list_elem_of_filter. tauto.
  - rewrite returned_generate_messages. f_equal.
    apply outputs_set_audiences. intros a Ha.
    apply elem_of_remove_dups.
  - apply NoDup_fst_map_to_list.
  - rewrite <- size_dom. by apply size_three_keys.
Qed.

(** The dict returned for [noisy_event]: the unknown audience has no key
    and pilot has one. *)
Example noisy_event_result :
  generate_messages (initial noisy_event)
  = (Return {["pilot" :=
       "operational delay in effect for N/A. Severity: medium.  Runway: TBD. Gate: the assigned gate. ETA change: TBD. Notes: N/A."]},
     initial noisy_event).
Proof.
  rewrite generate_messages_run. by vm_compute.
Qed.

(** C8: two calls in a row on the same event and rule table return the
    same dict. *)
Theorem generate_messages_deterministic s :
  ∃ out,
    (first ← generate_messages; second ← generate_messages; mret (first, second)) s
    = (Return (out, out), s).
Proof.
  exists (outputs s). unfold mbind, M_bind.
  by rewrite !generate_messages_run.
Qed.

(** C9: a call leaves the event dict and the rule table as they were. *)
Theorem generate_messages_no_side_effect s :
  st_RULES (generate_messages s).2 = st_RULES s
  ∧ st_event (generate_messages s).2 = st_event s.
Proof. by rewrite generate_messages_run. Qed.

(** C7: the weather delay of AI-320 to BOM, 45 minutes, gate A7, announced
    to passengers. *)
Theorem weather_AI320_passenger_message :
  ∃ out m,
    generate_messages (initial weather_AI320) = (Return out, initial weather_AI320)
    ∧ out !! "passenger" = Some m
    ∧ m = "Attention passengers: due to adverse weather affecting flight AI-320 to BOM. Estimated delay: 45 minutes. your safety is our priority. we appreciate your patience Please remain near gate A7 for updates. Thank you for your understanding."
    ∧ contains "AI-320" m ∧ contains "BOM" m
    ∧ contains "45 minutes" m ∧ contains "A7" m.
Proof.
  exists (outputs (initial weather_AI320)),
         (passenger_msg (initial weather_AI320)).
  split; [apply generate_messages_run |].
  split; [apply outputs_requested; by left |].
  split; [by vm_compute |].
  repeat split; apply str_in_sound; by vm_compute.
Qed.

(** C2: the call returns a message for every requested audience; without
    an ETA change, or with a change of zero, every message contains "TBD";
    with a positive change [n] every message contains the decimal numeral
    of [n] followed by " minutes".  All three messages interpolate the ETA
    text. *)
Theorem generate_messages_eta s :
  ∃ out,
    generate_messages s = (Return out, s)
    ∧ (∀ a, a ∈ all_audiences → a ∈ requested s → is_Some (out !! a))
    ∧ (eta_change_minutes (st_event s) = None
       ∨ eta_change_minutes (st_event s) = Some 0 →
       ∀ a m, out !! a = Some m → contains "TBD" m)
    ∧ (∀ n, 0 < n → eta_change_minutes (st_event s) = Some n →
       ∀ a m, out !! a = Some m → contains (str_of_int n +:+ " minutes") m).
Proof.
  exists (outputs s). split; [apply generate_messages_run |].
  assert (∀ a m, outputs s !! a = Some m →
            contains (eta_text (eta_change_minutes (st_event s))) m) as H.
  { intros a m (_ & _ & ->)%outputs_Some. apply message_for_contains. }
  split; [apply outputs_present |]. split.
  - intros Heta a m Hm. specialize (H a m Hm).
    by destruct Heta as [Heta | Heta]; rewrite Heta in H.
  - intros n Hn Heta a m Hm. specialize (H a m Hm).
    rewrite Heta in H. unfold eta_text in H.
    by rewrite decide_False in H by lia.
Qed.

Lemma generate_messages_eta_witness :
  ∃ out m,
    generate_messages (initial weather_AI320) = (Return out, initial weather_AI320)
    ∧ out !! "passenger" = Some m ∧ contains "45 minutes" m.
Proof.
  destruct (generate_messages_eta (initial weather_AI320))
    as (out & Hrun & Hin & _ & H).
  destruct (Hin "passenger") as [m Hm]; [by left | by left |].
  exists out, m. split; [exact Hrun |]. split; [exact Hm |].
  apply (H 45) with "passenger"; [lia | reflexivity | exact Hm].
Defined.

(** C4: with a supported event type and a flight number, the message of
    each requested audience is not empty and contains the flight number. *)
Theorem generate_messages_flight_no s fn a :
  default "" (event_type (st_event s)) ∈ EVENT_TYPES →
  flight_no (st_event s) = Some fn → fn ≠ "" →
  a ∈ all_audiences → a ∈ requested s →
  ∃ out m,
    generate_messages s = (Return out, s)
    ∧ out !! a = Some m ∧ m ≠ "" ∧ contains fn m.
Proof.
  intros _ Hfn Hne Ha Hreq. exists (outputs s), (message_for s a).
  split; [apply generate_messages_run |].
  split; [by apply outputs_requested |].
  assert (contains fn (message_for s a)) as H.
  { destruct (message_for_contains s a) as (H & _). cbn zeta in H.
    by rewrite Hfn, or_str_given in H. }
  split; [by apply (contains_not_empty fn) | done].
Qed.

Lemma generate_messages_flight_no_witness :
  ∃ out m,
    generate_messages (initial weather_AI320) = (Return out, initial weather_AI320)
    ∧ out !! "passenger" = Some m ∧ m ≠ "" ∧ contains "AI-320" m.
Proof.
  apply (generate_messages_flight_no (initial weather_AI320) "AI-320" "passenger").
  - by left.
  - reflexivity.
  - discriminate.
  - by left.
  - by left.
Defined.

(** ** Event types the table does not list *)

(** [EVENT_TYPES] holds the keys of [RULES["event_types"]]. *)
Lemma EVENT_TYPES_keys : dom (event_types RULES) = list_to_set EVENT_TYPES.
Proof.
  unfold RULES, EVENT_TYPES. simpl.
  rewrite !dom_insert_L, dom_empty_L. reflexivity.
Qed.

Lemma RULES_unknown etype :
  etype ∉ EVENT_TYPES → event_types RULES !! etype = None.
Proof.
  intros H. apply not_elem_of_dom. rewrite EVENT_TYPES_keys.
  by rewrite elem_of_list_to_set.
Qed.

(** [RULES["event_types"].get(etype, {})] is [{}], so every phrase list is
    [[]]. *)
Lemma unknown_type_phrases s a :
  event_types (st_RULES s) !! default "" (event_type (st_event s)) = None →
  phrases_of s a = [].
Proof. intros H. unfold phrases_of. by rewrite H. Qed.

(** C3 (as stated, refuted): for the event type "strike" the first phrase
    slot of the passenger message holds the fallback phrase "an operational
    delay"; it is not empty. *)
Lemma unknown_type_renders_fallback_phrase :
(default "" (event_type strike_event) ∉ EVENT_TYPES)
  ∧ ∃ out,
      generate_messages (initial strike_event) = (Return out, initial strike_event)
      ∧ out !! "passenger" = Some "Attention passengers: an operational delay affecting flight N/A to your destination. Estimated delay: TBD. .  Please remain near gate the assigned gate for updates. Thank you for your understanding."
      ∧ out !! "passenger"
        ≠ Some (strip (passenger_fstring "" "N/A" "your destination" "TBD"
                         "" "" "the assigned gate")).
Proof.
  split.
  - unfold EVENT_TYPES. simpl. rewrite !elem_of_cons, elem_of_nil.
    intros [? | [? | [? | []]]]; discriminate.
  - exists (outputs (initial strike_event)).
    split; [apply generate_messages_run |].
    split; [by vm_compute |].
    by vm_compute.
Qed.

(** C3 (amended): for an event type that is not weather, runway or
    technical the call returns; the three phrase lists are empty; and each
    phrase slot holds what its lookup falls back to: "an operational
    delay", "operational delay in effect", "coordinate impacted teams" and
    "notify affected parties" for the slots with a fallback phrase, the
    empty string for the other three. *)
Theorem generate_messages_unknown_type e :
  default "" (event_type e) ∉ EVENT_TYPES →
  ∃ out,
    generate_messages (initial e) = (Return out, initial e)
    ∧ (∀ a, phrases_of (initial e) a = [])
    ∧ (∀ a, a ∈ requested (initial e) → a ∈ all_audiences →
       out !! a = Some
         (pick_message
            (passenger_fstring
               "an operational delay"
               (or_str (flight_no e) "N/A")
               (or_str (destination e) "your destination")
               (eta_text (eta_change_minutes e))
               "" ""
               (or_str (gate e) "the assigned gate"))
            (pilot_fstring
               "operational delay in effect"
               (or_str (flight_no e) "N/A")
               (or_str (severity e) "medium")
               ""
               (or_str (runway e) "TBD")
               (or_str (gate e) "the assigned gate")
               (eta_text (eta_change_minutes e))
               (or_str (notes e) "N/A"))
            (staff_fstring
               (default "" (event_type e))
               (or_str (severity e) "medium")
               (or_str (flight_no e) "N/A")
               (or_str (gate e) "the assigned gate")
               (or_str (runway e) "TBD")
               (eta_text (eta_change_minutes e))
               "coordinate impacted teams"
               "notify affected parties")
            a)).
Proof.
  intros Hun. exists (outputs (initial e)).
  split; [apply generate_messages_run |].
  assert (∀ a, phrases_of (initial e) a = []) as Hp.
  { intros a. apply unknown_type_phrases. by apply RULES_unknown. }
  split; [done |].
  intros a Hreq Ha. rewrite (outputs_requested _ _ Hreq Ha). f_equal.
  unfold message_for. f_equal.
  - by rewrite passenger_msg_unfold, Hp.
  - rewrite pilot_msg_unfold_visible; by rewrite Hp.
  - by rewrite staff_msg_unfold, Hp.
Qed.

Lemma generate_messages_unknown_type_witness :
  ∃ out,
    generate_messages (initial strike_event) = (Return out, initial strike_event)
    ∧ out !! "pilot" = Some "operational delay in effect for N/A. Severity: medium.  Runway: TBD. Gate: the assigned gate. ETA change: TBD. Notes: N/A.".
Proof.
  destruct (generate_messages_unknown_type strike_event) as (out & Hrun & _ & H).
  - unfold EVENT_TYPES. simpl. rewrite !elem_of_cons, elem_of_nil.
    intros [? | [? | [? | []]]]; discriminate.
  - exists out. split; [exact Hrun |].
    rewrite (H "pilot"); [reflexivity | | ].
    + right. by left.
    + right. by left.
Defined.

(** ** Index-safe lookup *)

(** C6 (as stated, refuted): the generator's first lookup in an empty
    passenger list returns its fallback phrase, not the empty string. *)
Lemma lookup_beyond_end_not_empty :
  Z.of_nat (length ([] : list string)) ≤ 0
  ∧ _safe [] 0 "an operational delay" (initial empty_event)
    = (Return "an operational delay", initial empty_event)
  ∧ "an operational delay" ≠ "".
Proof. split; [done |]. split; [by rewrite _safe_run | discriminate]. Qed.

(** C6 (amended): a lookup never raises; at a position beyond the end of
    the list it returns the default given at the call, which is the empty
    string when the call gives none; and the generator returns whatever the
    lengths of the phrase lists in the table. *)
Theorem safe_lookup_never_fails :
  (∀ lst idx dflt s, ∃ v, _safe lst idx dflt s = (Return v, s))
  ∧ (∀ lst idx dflt s,
       Z.of_nat (length lst) ≤ idx → _safe lst idx dflt s = (Return dflt, s))
  ∧ (∀ lst idx s,
       Z.of_nat (length lst) ≤ idx → _safe lst idx "" s = (Return "", s))
  ∧ (∀ s, ∃ out, generate_messages s = (Return out, s)).
Proof.
  assert (∀ lst idx dflt s,
            Z.of_nat (length lst) ≤ idx → _safe lst idx dflt s = (Return dflt, s)) as H.
  { intros lst idx dflt s Hle. rewrite _safe_run. unfold phrase_at.
    by rewrite list_item_beyond. }
  split; [| split; [| split]].
  - intros lst idx dflt s. eexists. apply _safe_run.
  - exact H.
  - intros lst idx s. apply H.
  - intros s. eexists. apply generate_messages_run.
Qed.

Lemma safe_lookup_never_fails_witness :
  _safe ["runway availability constraints"] 1 "" (initial empty_event)
  = (Return "", initial empty_event).
Proof.
  destruct safe_lookup_never_fails as (_ & _ & H & _).
  apply H. simpl. lia.
Defined.

(** ** Placeholders *)

(** The dict depends on the event only through the three messages and the
    audience list. *)
Lemma outputs_ext s s' :
  passenger_msg s = passenger_msg s' → pilot_msg s = pilot_msg s' →
  staff_msg s = staff_msg s' → requested s = requested s' →
  outputs s = outputs s'.
Proof. unfold outputs. by intros -> -> -> ->. Qed.

Ltac same_outputs :=
  apply outputs_ext;
  unfold passenger_msg, pilot_msg, staff_msg, phrases_of, requested, with_event;
  cbn [st_event st_RULES event_type severity flight_no destination
       eta_change_minutes gate runway audiences notes
       set_flight_no set_destination set_gate set_runway set_notes
       set_severity or_str];
  match goal with
  | H : blank _ |- _ => rewrite ?(or_str_blank _ _ H); reflexivity
  end.

Section placeholders.
Variable s : Store.

Local Abbreviation e := (st_event s).
Local Abbreviation rebound f := (with_event (f (st_event s)) s).

Lemma flight_no_placeholder :
  blank (flight_no e) → outputs (rebound (set_flight_no (Some "N/A"))) = outputs s.
Proof. intros. same_outputs. Qed.

Lemma destination_placeholder :
  blank (destination e) →
  outputs (rebound (set_destination (Some "your destination"))) = outputs s.
Proof. intros. same_outputs. Qed.

Lemma gate_placeholder :
  blank (gate e) →
  outputs (rebound (set_gate (Some "the assigned gate"))) = outputs s.
Proof. intros. same_outputs. Qed.

Lemma runway_placeholder :
  blank (runway e) → outputs (rebound (set_runway (Some "TBD"))) = outputs s.
Proof. intros. same_outputs. Qed.

Lemma notes_placeholder :
  blank (notes e) → outputs (rebound (set_notes (Some "N/A"))) = outputs s.
Proof. intros. same_outputs. Qed.

Lemma severity_placeholder :
  blank (severity e) → outputs (rebound (set_severity (Some "medium"))) = outputs s.
Proof. intros. same_outputs. Qed.

(** C5: the call returns a message for every requested audience, and a
    display field that is absent or empty is rendered as its
    placeholder: the call returns the dict it returns when the field holds
    the placeholder ("N/A" for flight_no and notes, "your destination" for
    destination, "the assigned gate" for gate, "TBD" for runway, "medium"
    for severity), and the messages that interpolate the field contain the
    placeholder. *)
Theorem generate_messages_placeholders :
  ∃ out,
    generate_messages s = (Return out, s)
    ∧ (∀ a, a ∈ all_audiences → a ∈ requested s → is_Some (out !! a))
    ∧ (blank (flight_no e) →
       returned (generate_messages (rebound (set_flight_no (Some "N/A"))))
       = Some out
       ∧ ∀ a m, out !! a = Some m → contains "N/A" m)
    ∧ (blank (destination e) →
       returned (generate_messages
                   (rebound (set_destination (Some "your destination"))))
       = Some out
       ∧ ∀ m, out !! "passenger" = Some m → contains "your destination" m)
    ∧ (blank (gate e) →
       returned (generate_messages
                   (rebound (set_gate (Some "the assigned gate"))))
       = Some out
       ∧ ∀ a m, out !! a = Some m → contains "the assigned gate" m)
    ∧ (blank (runway e) →
       returned (generate_messages (rebound (set_runway (Some "TBD"))))
       = Some out
       ∧ ∀ a m, a ≠ "passenger" → out !! a = Some m → contains "TBD" m)
    ∧ (blank (notes e) →
       returned (generate_messages (rebound (set_notes (Some "N/A"))))
       = Some out
       ∧ ∀ m, out !! "pilot" = Some m → contains "N/A" m)
    ∧ (blank (severity e) →
       returned (generate_messages (rebound (set_severity (Some "medium"))))
       = Some out
       ∧ ∀ a m, a ≠ "passenger" → out !! a = Some m → contains "medium" m).
Proof.
  exists (outputs s). split; [apply generate_messages_run |].
  destruct (passenger_msg_contains s) as (Pf & Pd & _ & Pg).
  destruct (pilot_msg_contains s) as (Gf & Gs & Gr & Gg & _ & Gn).
  destruct (staff_msg_contains s) as (_ & Ss & Sf & Sg & Sr & _).
  cbn zeta in *.
  assert (∀ a m (P : string → Prop),
            outputs s !! a = Some m →
            (a = "passenger" → P (passenger_msg s)) →
            (a = "pilot" → P (pilot_msg s)) →
            (a = "staff" → P (staff_msg s)) → P m) as Hcase.
  { intros a m P (_ & Ha & ->)%outputs_Some H1 H2 H3.
    apply all_audiences_spec in Ha as [-> | [-> | ->]]; auto. }
  split; [apply outputs_present |].
  repeat split; try (rewrite returned_generate_messages; f_equal).
  - by apply flight_no_placeholder.
  - intros a m Hm. rewrite (or_str_blank _ _ H) in Pf, Gf, Sf.
    apply (Hcase a m _ Hm); auto.
  - by apply destination_placeholder.
  - intros m Hm. rewrite (or_str_blank _ _ H) in Pd.
    apply (Hcase _ m _ Hm); [auto | discriminate | discriminate].
  - by apply gate_placeholder.
  - intros a m Hm. rewrite (or_str_blank _ _ H) in Pg, Gg, Sg.
    apply (Hcase a m _ Hm); auto.
  - by apply runway_placeholder.
  - intros a m Ha Hm. rewrite (or_str_blank _ _ H) in Gr, Sr.
    apply (Hcase a m _ Hm); [done | auto | auto].
  - by apply notes_placeholder.
  - intros m Hm. rewrite (or_str_blank _ _ H) in Gn.
    apply (Hcase _ m _ Hm); [discriminate | auto | discriminate].
  - by apply severity_placeholder.
  - intros a m Ha Hm. rewrite (or_str_blank _ _ H) in Gs, Ss.
    apply (Hcase a m _ Hm); [done | auto | auto].
Qed.

End placeholders.

Lemma generate_messages_placeholders_witness :
  ∃ out mp mg,
    generate_messages (initial empty_event) = (Return out, initial empty_event)
    ∧ out !! "passenger" = Some mp ∧ out !! "pilot" = Some mg
    ∧ contains "N/A" mp ∧ contains "the assigned gate" mp
    ∧ contains "your destination" mp
    ∧ contains "N/A" mg ∧ contains "medium" mg ∧ contains "TBD" mg.
Proof.
  destruct (generate_messages_placeholders (initial empty_event))
    as (out & Hrun & Hin & Hf & Hd & Hg & Hr & _ & Hs).
  destruct (Hin "passenger") as [mp Hmp]; [by left | by left |].
  destruct (Hin "pilot") as [mg Hmg]; [right; by left | right; by left |].
  exists out, mp, mg. split; [exact Hrun |].
  destruct Hf as [_ Hf]; [by left |].
  destruct Hd as [_ Hd]; [by left |].
  destruct Hg as [_ Hg]; [by left |].
  destruct Hr as [_ Hr]; [by left |].
  destruct Hs as [_ Hs]; [by left |].
  split; [exact Hmp |]. split; [exact Hmg |].
  split; [by apply (Hf "passenger") |].
  split; [by apply (Hg "passenger") |].
  split; [by apply Hd |].
  split; [by apply (Hf "pilot") |].
  split; [by apply (Hs "pilot") | by apply (Hr "pilot")].
Defined.

(** ** The Python operations on small inputs *)

Example list_item_examples :
  list_item ["a"; "b"] 1 = Some "b" ∧ list_item ["a"; "b"] 2 = None
  ∧ list_item ["a"; "b"] (-1) = Some "b" ∧ list_item ["a"; "b"] (-2) = Some "a"
  ∧ list_item ["a"; "b"] (-3) = None.
Proof. by vm_compute. Qed.

Example strip_examples :
  strip "  gate A7 " = "gate A7" ∧ strip "   " = "" ∧ strip "A7" = "A7".
Proof. by vm_compute. Qed.

Example str_of_int_examples :
  str_of_int 45 = "45" ∧ str_of_int 120 = "120" ∧ str_of_int (-5) = "-5".
Proof. by vm_compute. Qed.

Example eta_text_examples :
  eta_text None = "TBD" ∧ eta_text (Some 0) = "TBD"
  ∧ eta_text (Some 45) = "45 minutes".
Proof. by vm_compute. Qed.

(** * Further properties of the code *)

(** ** [_safe]: indices within range and below it *)

(** X1: a lookup at a valid position returns the element there and
    ignores the default; a negative index counts from the end of the list;
    an index below [-len(lst)] yields the default, like one beyond the
    end. *)
Theorem safe_lookup_index_semantics (lst : list string) idx dflt s :
  (∀ x, 0 ≤ idx → lst !! Z.to_nat idx = Some x →
        _safe lst idx dflt s = (Return x, s))
  ∧ (∀ x, idx < 0 → 0 ≤ idx + Z.of_nat (length lst) →
          lst !! Z.to_nat (idx + Z.of_nat (length lst)) = Some x →
          _safe lst idx dflt s = (Return x, s))
  ∧ (idx + Z.of_nat (length lst) < 0 → _safe lst idx dflt s = (Return dflt, s)).
Proof.
  rewrite _safe_run. unfold phrase_at, list_item. split; [| split].
  - intros x H0 Hx. destruct (decide (idx < 0)); [lia |].
    destruct (decide (0 ≤ idx)); [| lia]. by rewrite Hx.
  - intros x Hneg H0 Hx. destruct (decide (idx < 0)); [| lia].
    destruct (decide (0 ≤ idx + Z.of_nat (length lst))); [| lia]. by rewrite Hx.
  - intros Hlow. destruct (decide (idx < 0)); [| lia].
    by destruct (decide (0 ≤ idx + Z.of_nat (length lst))); [lia |].
Qed.

Lemma safe_lookup_index_semantics_witness :
  _safe ["due to adverse weather"; "your safety is our priority"] (-1) "x"
    (initial empty_event)
  = (Return "your safety is our priority", initial empty_event)
  ∧ _safe ["due to adverse weather"; "your safety is our priority"] (-3) "x"
      (initial empty_event)
    = (Return "x", initial empty_event).
Proof.
  destruct (safe_lookup_index_semantics
              ["due to adverse weather"; "your safety is our priority"] (-1) "x"
              (initial empty_event)) as (_ & H1 & _).
  destruct (safe_lookup_index_semantics
              ["due to adverse weather"; "your safety is our priority"] (-3) "x"
              (initial empty_event)) as (_ & _ & H2).
  split.
  - apply H1; [lia | simpl; lia | reflexivity].
  - apply H2. simpl. lia.
Defined.

(** ** [generate_messages]: what each message shows and what it does not *)

(** X2: the call returns a message for every requested audience, and
    every display field the event supplies appears verbatim in the
    messages whose f-string interpolates it: the destination in the
    passenger message; the gate in all three; runway and severity in the
    pilot and staff messages; the notes in the pilot message; the event
    type in the staff message. *)
Theorem generate_messages_renders_fields s :
  ∃ out,
    generate_messages s = (Return out, s)
    ∧ (∀ a, a ∈ all_audiences → a ∈ requested s → is_Some (out !! a))
    ∧ (∀ v, destination (st_event s) = Some v → v ≠ "" →
         ∀ m, out !! "passenger" = Some m → contains v m)
    ∧ (∀ v, gate (st_event s) = Some v → v ≠ "" →
         ∀ a m, out !! a = Some m → contains v m)
    ∧ (∀ v, runway (st_event s) = Some v → v ≠ "" →
         ∀ a m, a ≠ "passenger" → out !! a = Some m → contains v m)
    ∧ (∀ v, severity (st_event s) = Some v → v ≠ "" →
         ∀ a m, a ≠ "passenger" → out !! a = Some m → contains v m)
    ∧ (∀ v, notes (st_event s) = Some v → v ≠ "" →
         ∀ m, out !! "pilot" = Some m → contains v m)
    ∧ (∀ v, event_type (st_event s) = Some v →
         ∀ m, out !! "staff" = Some m → contains v m).
Proof.
  exists (outputs s). split; [apply generate_messages_run |].
  destruct (passenger_msg_contains s) as (_ & Pd & _ & Pg).
  destruct (pilot_msg_contains s) as (_ & Gs & Gr & Gg & _ & Gn).
  destruct (staff_msg_contains s) as (St & Ss & _ & Sg & Sr & _).
  cbn zeta in *.
  assert (∀ a m (P : string → Prop),
            outputs s !! a = Some m →
            (a = "passenger" → P (passenger_msg s)) →
            (a = "pilot" → P (pilot_msg s)) →
            (a = "staff" → P (staff_msg s)) → P m) as Hcase.
  { intros a m P (_ & Ha & ->)%outputs_Some H1 H2 H3.
    apply all_audiences_spec in Ha as [-> | [-> | ->]]; auto. }
  split; [apply outputs_present |].
  split; [| split; [| split; [| split; [| split]]]].
  - intros v Hv Hne m Hm. rewrite Hv, or_str_given in Pd by done.
    apply (Hcase _ m _ Hm); [auto | discriminate | discriminate].
  - intros v Hv Hne a m Hm. rewrite Hv, or_str_given in Pg, Gg, Sg by done.
    apply (Hcase a m _ Hm); auto.
  - intros v Hv Hne a m Ha Hm. rewrite Hv, or_str_given in Gr, Sr by done.
    apply (Hcase a m _ Hm); [done | auto | auto].
  - intros v Hv Hne a m Ha Hm. rewrite Hv, or_str_given in Gs, Ss by done.
    apply (Hcase a m _ Hm); [done | auto | auto].
  - intros v Hv Hne m Hm. rewrite Hv, or_str_given in Gn by done.
    apply (Hcase _ m _ Hm); [discriminate | auto | discriminate].
  - intros v Hv m Hm. rewrite Hv in St.
    apply (Hcase _ m _ Hm); [discriminate | discriminate | auto].
Qed.

Lemma generate_messages_renders_fields_witness :
  ∃ out m,
    generate_messages (initial weather_AI320) = (Return out, initial weather_AI320)
    ∧ out !! "passenger" = Some m ∧ contains "BOM" m ∧ contains "A7" m.
Proof.
  destruct (generate_messages_renders_fields (initial weather_AI320))
    as (out & Hrun & Hin & Hd & Hg & _).
  destruct (Hin "passenger") as [m Hm]; [by left | by left |].
  exists out, m. split; [exact Hrun |]. split; [exact Hm |]. split.
  - apply (Hd "BOM"); [reflexivity | discriminate | exact Hm].
  - apply (Hg "A7") with "passenger"; [reflexivity | discriminate | exact Hm].
Defined.

(** X3: the list [RULES["forbidden"]] is never consulted: whatever it
    holds, the call returns the same dict; and each of its words, given as
    the notes of an event, appears unfiltered in the pilot message. *)
Theorem forbidden_words_not_enforced :
  (∀ s l,
     returned (generate_messages (with_forbidden l s))
     = returned (generate_messages s))
  ∧ (∀ e w,
       w ∈ forbidden RULES → notes e = Some w → "pilot" ∈ requested (initial e) →
       ∃ out m,
         generate_messages (initial e) = (Return out, initial e)
         ∧ out !! "pilot" = Some m ∧ contains w m).
Proof.
  split.
  - intros s l. by rewrite !returned_generate_messages.
  - intros e w Hw Hn Hreq.
    exists (outputs (initial e)), (pilot_msg (initial e)).
    split; [apply generate_messages_run |].
    split.
    { rewrite outputs_requested; [done | done |].
      apply all_audiences_spec. tauto. }
    destruct (pilot_msg_contains (initial e)) as (_ & _ & _ & _ & _ & H).
    cbn zeta in H. change (st_event (initial e)) with e in H.
    rewrite Hn, or_str_given in H; [done |].
    unfold RULES in Hw. simpl in Hw.
    rewrite !elem_of_cons, elem_of_nil in Hw.
    destruct Hw as [-> | [-> | [-> | [-> | []]]]]; discriminate.
Qed.

Lemma forbidden_words_not_enforced_witness :
  ∃ out m,
    generate_messages (initial (set_notes (Some "panic") empty_event))
    = (Return out, initial (set_notes (Some "panic") empty_event))
    ∧ out !! "pilot" = Some m ∧ contains "panic" m.
Proof.
  destruct forbidden_words_not_enforced as [_ H].
  apply (H (set_notes (Some "panic") empty_event) "panic").
  - by left.
  - reflexivity.
  - right. by left.
Defined.

(** X4: the keys [origin] and [language] of the event have no effect:
    whatever they are bound to, the call returns the same dict. *)
Theorem generate_messages_ignores_origin_language s vo vl :
  returned (generate_messages
              (with_event (set_origin vo (set_language vl (st_event s))) s))
  = returned (generate_messages s).
Proof. by rewrite !returned_generate_messages. Qed.

(** X5: a message depends only on the fields its f-string interpolates:
    the passenger message is the same whatever severity, runway and notes
    are; the pilot message whatever the destination is; the staff message
    whatever destination and notes are. *)
Theorem messages_keep_to_their_fields s vs vr vn vd :
  ∃ out out1 out2 out3,
    generate_messages s = (Return out, s)
    ∧ returned (generate_messages
        (with_event (set_severity vs (set_runway vr (set_notes vn (st_event s)))) s))
      = Some out1
    ∧ returned (generate_messages (with_event (set_destination vd (st_event s)) s))
      = Some out2
    ∧ returned (generate_messages
        (with_event (set_destination vd (set_notes vn (st_event s))) s))
      = Some out3
    ∧ out1 !! "passenger" = out !! "passenger"
    ∧ out2 !! "pilot" = out !! "pilot"
    ∧ out3 !! "staff" = out !! "staff".
Proof.
  eexists _, _, _, _. split; [apply generate_messages_run |].
  split; [apply returned_generate_messages |].
  split; [apply returned_generate_messages |].
  split; [apply returned_generate_messages |].
  by rewrite !outputs_lookup.
Qed.

(** X6: only zero counts as "no ETA change": a negative change [n] is
    rendered with its sign: the call returns a message for every requested
    audience, and every message contains "-", the decimal numeral of [-n]
    and " minutes". *)
Theorem generate_messages_negative_eta s n :
  n < 0 → eta_change_minutes (st_event s) = Some n →
  ∃ out,
    generate_messages s = (Return out, s)
    ∧ (∀ a, a ∈ all_audiences → a ∈ requested s → is_Some (out !! a))
    ∧ ∀ a m, out !! a = Some m →
        contains ("-" +:+ str_of_int (- n) +:+ " minutes") m.
Proof.
  intros Hn Heta. exists (outputs s). split; [apply generate_messages_run |].
  split; [apply outputs_present |].
  intros a m (_ & _ & ->)%outputs_Some.
  destruct (message_for_contains s a) as (_ & _ & H). cbn zeta in H.
  rewrite Heta in H. unfold eta_text in H. rewrite decide_False in H by lia.
  destruct n as [|p|p]; [lia | lia |].
  by rewrite <- append_assoc.
Qed.

Lemma generate_messages_negative_eta_witness :
  ∃ out m,
    generate_messages (initial (set_eta_change_minutes (Some (-15)) empty_event))
    = (Return out, initial (set_eta_change_minutes (Some (-15)) empty_event))
    ∧ out !! "staff" = Some m ∧ contains "-15 minutes" m.
Proof.
  destruct (generate_messages_negative_eta
              (initial (set_eta_change_minutes (Some (-15)) empty_event)) (-15))
    as (out & Hrun & Hin & H); [lia | reflexivity |].
  destruct (Hin "staff") as [m Hm]; [do 2 right; by left | do 2 right; by left |].
  exists out, m. split; [exact Hrun |]. split; [exact Hm |].
  exact (H "staff" m Hm).
Defined.

(** The static table, type by type. *)
Lemma event_type_cases etype :
  etype = "weather" ∨ etype = "runway" ∨ etype = "technical"
  ∨ (etype ∉ EVENT_TYPES).
Proof.
  destruct (decide (etype = "weather")); [tauto |].
  destruct (decide (etype = "runway")); [tauto |].
  destruct (decide (etype = "technical")); [tauto |].
  do 3 right. unfold EVENT_TYPES. rewrite !elem_of_cons, elem_of_nil. tauto.
Qed.

Lemma static_phrases_cases e a :
  let etype := default "" (event_type e) in
  (etype = "weather"
   ∧ phrases_of (initial e) a
     = default [] (default ∅ (default ∅ (event_types RULES !! "weather") !! "phrases") !! a))
  ∨ (etype = "runway"
     ∧ phrases_of (initial e) a
       = default [] (default ∅ (default ∅ (event_types RULES !! "runway") !! "phrases") !! a))
  ∨ (etype = "technical"
     ∧ phrases_of (initial e) a
       = default [] (default ∅ (default ∅ (event_types RULES !! "technical") !! "phrases") !! a))
  ∨ ((etype ∉ EVENT_TYPES) ∧ phrases_of (initial e) a = []).
Proof.
  cbn zeta. unfold phrases_of. cbn [initial st_RULES st_event].
  destruct (event_type_cases (default "" (event_type e)))
    as [H | [H | [H | H]]].
  - left. by rewrite H.
  - right; left. by rewrite H.
  - do 2 right; left. by rewrite H.
  - do 3 right. split; [done |]. by rewrite RULES_unknown.
Qed.

Lemma static_pilot_phrase_visible e :
  starts_visible
    (phrase_at (phrases_of (initial e) "pilot") 0 "operational delay in effect").
Proof.
  destruct (static_phrases_cases e "pilot")
    as [[_ ->] | [[_ ->] | [[_ ->] | [_ ->]]]]; by vm_compute.
Qed.

(** X7: with the static table, [.strip()] removes nothing: for every
    event, each message returned is exactly its f-string. *)
Theorem static_messages_unstripped e a :
  a ∈ requested (initial e) → a ∈ all_audiences →
  ∃ out,
    generate_messages (initial e) = (Return out, initial e)
    ∧ out !! a = Some
        (pick_message
           (passenger_fstring
              (phrase_at (phrases_of (initial e) "passenger") 0
                 "an operational delay")
              (or_str (flight_no e) "N/A")
              (or_str (destination e) "your destination")
              (eta_text (eta_change_minutes e))
              (phrase_at (phrases_of (initial e) "passenger") 1 "")
              (phrase_at (phrases_of (initial e) "passenger") 2 "")
              (or_str (gate e) "the assigned gate"))
           (pilot_fstring
              (phrase_at (phrases_of (initial e) "pilot") 0
                 "operational delay in effect")
              (or_str (flight_no e) "N/A")
              (or_str (severity e) "medium")
              (phrase_at (phrases_of (initial e) "pilot") 1 "")
              (or_str (runway e) "TBD")
              (or_str (gate e) "the assigned gate")
              (eta_text (eta_change_minutes e))
              (or_str (notes e) "N/A"))
           (staff_fstring
              (default "" (event_type e))
              (or_str (severity e) "medium")
              (or_str (flight_no e) "N/A")
              (or_str (gate e) "the assigned gate")
              (or_str (runway e) "TBD")
              (eta_text (eta_change_minutes e))
              (phrase_at (phrases_of (initial e) "staff") 0
                 "coordinate impacted teams")
              (phrase_at (phrases_of (initial e) "staff") 1
                 "notify affected parties"))
           a).
Proof.
  intros Hreq Ha. exists (outputs (initial e)).
  split; [apply generate_messages_run |].
  rewrite (outputs_requested _ _ Hreq Ha). f_equal.
  unfold message_for. f_equal.
  - apply passenger_msg_unfold.
  - apply pilot_msg_unfold_visible, static_pilot_phrase_visible.
  - apply staff_msg_unfold.
Qed.

Lemma static_messages_unstripped_witness :
  ∃ out,
    generate_messages (initial strike_event) = (Return out, initial strike_event)
    ∧ out !! "staff" = Some "Action required: event=strike, severity=medium for flight N/A. - Gate: the assigned gate, Runway: TBD, ETA change: TBD. - Tasks: coordinate impacted teams, notify affected parties. - Comms: update FIDS, inform AOCC, and document actions in the log.".
Proof.
  destruct (static_messages_unstripped strike_event "staff") as (out & Hrun & H).
  - do 2 right. by left.
  - do 2 right. by left.
  - exists out. split; [exact Hrun |]. rewrite H. reflexivity.
Defined.

(** X8: a phrase list shorter than three leaves stray punctuation: for
    every event whose type is neither weather nor technical (runway, or a
    type the table does not list) the passenger message contains
    ". .  Please remain near gate ". *)
Theorem short_phrase_list_leaves_stray_dots e :
  default "" (event_type e) ≠ "weather" →
  default "" (event_type e) ≠ "technical" →
  "passenger" ∈ requested (initial e) →
  ∃ out m,
    generate_messages (initial e) = (Return out, initial e)
    ∧ out !! "passenger" = Some m
    ∧ contains ". .  Please remain near gate " m.
Proof.
  intros Hw Ht Hreq.
  exists (outputs (initial e)), (passenger_msg (initial e)).
  split; [apply generate_messages_run |].
  split.
  { rewrite outputs_requested; [done | done |]. apply all_audiences_spec. tauto. }
  rewrite passenger_msg_unfold. unfold passenger_fstring.
  assert (phrase_at (phrases_of (initial e) "passenger") 1 "" = ""
          ∧ phrase_at (phrases_of (initial e) "passenger") 2 "" = "") as [-> ->].
  { destruct (static_phrases_cases e "passenger")
      as [[H _] | [[_ ->] | [[H _] | [_ ->]]]]; try done. }
  do 10 apply contains_app_r.
  change (contains ". .  Please remain near gate "
            (". .  Please remain near gate "
             +:+ or_str (gate (st_event (initial e))) "the assigned gate"
             +:+ " for updates. Thank you for your understanding.")).
  apply contains_here.
Qed.

Lemma short_phrase_list_leaves_stray_dots_witness :
  ∃ out m,
    generate_messages (initial strike_event) = (Return out, initial strike_event)
    ∧ out !! "passenger" = Some m
    ∧ contains ". .  Please remain near gate " m.
Proof.
  apply (short_phrase_list_leaves_stray_dots strike_event).
  - discriminate.
  - discriminate.
  - by left.
Defined.

(** X9: the call returns a message for every requested audience, and
    every message returned is a non-empty string inside a fixed frame: the passenger message opens with "Attention passengers: " and
    closes with "Thank you for your understanding."; the staff message
    opens with "Action required: event=" and closes with "document actions
    in the log."; the pilot message closes with a full stop. *)
Theorem messages_have_fixed_frame s :
  ∃ out,
    generate_messages s = (Return out, s)
    ∧ (∀ a, a ∈ all_audiences → a ∈ requested s → is_Some (out !! a))
    ∧ (∀ a m, out !! a = Some m → m ≠ "")
    ∧ (∀ m, out !! "passenger" = Some m →
         ∃ mid, m = "Attention passengers: " +:+ mid
                    +:+ "Thank you for your understanding.")
    ∧ (∀ m, out !! "pilot" = Some m → ∃ mid, m = mid +:+ ".")
    ∧ (∀ m, out !! "staff" = Some m →
         ∃ mid, m = "Action required: event=" +:+ mid
                    +:+ "document actions in the log.").
Proof.
  exists (outputs s). split; [apply generate_messages_run |].
  split; [apply outputs_present |].
  split; [| split; [| split]].
  - intros a m (_ & Ha & ->)%outputs_Some. unfold message_for, pick_message.
    repeat case_decide.
    + rewrite passenger_msg_unfold. discriminate.
    + destruct (pilot_msg_unfold s) as [p0' ->].
      apply append_not_empty_r. discriminate.
    + rewrite staff_msg_unfold. discriminate.
  - intros m (_ & _ & ->)%outputs_Some.
    unfold message_for, pick_message. rewrite decide_True by done.
    rewrite passenger_msg_unfold. unfold passenger_fstring.
    eexists. f_equal.
    change " for updates. Thank you for your understanding."
      with (" for updates. " +:+ "Thank you for your understanding.").
    rewrite <- !append_assoc. reflexivity.
  - intros m (_ & _ & ->)%outputs_Some.
    unfold message_for, pick_message.
    rewrite decide_False by discriminate. rewrite decide_True by done.
    destruct (pilot_msg_unfold s) as [p0' ->].
    eexists. rewrite <- !append_assoc. reflexivity.
  - intros m (_ & _ & ->)%outputs_Some.
    unfold message_for, pick_message.
    rewrite !decide_False by discriminate.
    rewrite staff_msg_unfold. unfold staff_fstring.
    eexists. f_equal.
    change "- Comms: update FIDS, inform AOCC, and document actions in the log."
      with ("- Comms: update FIDS, inform AOCC, and "
            +:+ "document actions in the log.").
    rewrite <- !append_assoc. reflexivity.
Qed.

(** ** [EventForm.to_event] *)

(** The numeral of an [int] ends with a digit. *)
Lemma pretty_N_go_suffix (x : N) s : ∃ pre, pretty_N_go x s = pre +:+ s.
Proof.
  revert s. induction (N.lt_wf_0 x) as [x _ IH]; intros s.
  destruct (decide (0 < x)%N) as [Hx | Hx].
  - rewrite pretty_N_go_step by done.
    destruct (IH (x `div` 10)%N (N.div_lt x 10 Hx eq_refl)
                (String (pretty_N_char (x `mod` 10)) s)) as [pre ->].
    exists (pre +:+ String (pretty_N_char (x `mod` 10)) "").
    by rewrite append_assoc.
  - assert (x = 0%N) as -> by lia. exists "". by rewrite pretty_N_go_0.
Qed.

Lemma pretty_N_char_visible (x : N) : isspace (pretty_N_char x) = false.
Proof. unfold pretty_N_char. by repeat case_match. Qed.

Lemma pretty_positive_ends_with_digit (p : positive) :
  ∃ pre d, pretty p = pre +:+ String d "" ∧ isspace d = false.
Proof.
  unfold pretty, pretty_positive, pretty, pretty_N.
  rewrite decide_False by done.
  rewrite pretty_N_go_step by done.
  destruct (pretty_N_go_suffix (N.pos p `div` 10)
              (String (pretty_N_char (N.pos p `mod` 10)) "")) as [pre ->].
  eexists _, _. split; [done | apply pretty_N_char_visible].
Qed.

Lemma str_of_int_ends_with_digit n :
  ∃ pre d, str_of_int n = pre +:+ String d "" ∧ isspace d = false.
Proof.
  unfold str_of_int, pretty, pretty_Z. destruct n as [|p|p].
  - by exists "", "0"%char.
  - apply pretty_positive_ends_with_digit.
  - destruct (pretty_positive_ends_with_digit p) as (pre & d & -> & Hd).
    exists ("-" +:+ pre), d. by rewrite append_assoc.
Qed.

(** [str(n).strip()] is never the empty string. *)
Lemma strip_str_of_int_not_empty n : strip (str_of_int n) ≠ "".
Proof.
  destruct (str_of_int_ends_with_digit n) as (pre & d & -> & Hd).
  unfold strip. destruct (lstrip_app_visible pre d "" Hd) as [a' ->].
  assert (ends_visible (a' +:+ String d "")) as [-> H]; [| done].
  apply ends_visible_app. split; [| done]. simpl. by rewrite Hd.
Qed.

Lemma to_event_audience_membership (f : EventForm.EventForm) :
  ∃ l,
    audiences (EventForm.to_event f) = Some l
    ∧ let none :=
        EventForm.audience_passenger f = false
        ∧ EventForm.audience_pilot f = false
        ∧ EventForm.audience_staff f = false in
      ("passenger" ∈ l ↔ EventForm.audience_passenger f = true ∨ none)
      ∧ ("pilot" ∈ l ↔ EventForm.audience_pilot f = true ∨ none)
      ∧ ("staff" ∈ l ↔ EventForm.audience_staff f = true ∨ none).
Proof.
  unfold EventForm.to_event. cbn [audiences]. eexists. split; [reflexivity |].
  destruct (EventForm.audience_passenger f), (EventForm.audience_pilot f),
    (EventForm.audience_staff f); cbn.
  all: rewrite !elem_of_cons, !elem_of_nil.
  all: repeat split; intros H; try tauto.
  all: exfalso; repeat (destruct H as [H | H]; try discriminate);
    try (destruct H as (? & ? & ?); discriminate); done.
Qed.

(** X10: the ETA of the form reaches the event unchanged, whatever the
    integer: the test [str(n).strip()] of [to_event] never fails, so its
    fallback [0] is never taken. *)
Theorem to_event_keeps_eta (f : EventForm.EventForm) :
  eta_change_minutes (EventForm.to_event f)
  = Some (EventForm.eta_change_minutes f).
Proof.
  unfold EventForm.to_event. cbn [eta_change_minutes]. f_equal.
  pose proof (strip_str_of_int_not_empty (EventForm.eta_change_minutes f)).
  by destruct (strip (str_of_int (EventForm.eta_change_minutes f))).
Qed.

(** X11: the audience list [to_event] builds is never empty, has no
    duplicate, names only the three audiences, and names an audience
    exactly when its box is ticked or no box is ticked at all. *)
Theorem to_event_audiences (f : EventForm.EventForm) :
  ∃ l,
    audiences (EventForm.to_event f) = Some l
    ∧ l ≠ [] ∧ NoDup l ∧ l ⊆ all_audiences
    ∧ let none :=
        EventForm.audience_passenger f = false
        ∧ EventForm.audience_pilot f = false
        ∧ EventForm.audience_staff f = false in
      ("passenger" ∈ l ↔ EventForm.audience_passenger f = true ∨ none)
      ∧ ("pilot" ∈ l ↔ EventForm.audience_pilot f = true ∨ none)
      ∧ ("staff" ∈ l ↔ EventForm.audience_staff f = true ∨ none).
Proof.
  unfold EventForm.to_event. cbn [audiences]. eexists. split; [reflexivity |].
  unfold all_audiences.
  destruct (EventForm.audience_passenger f), (EventForm.audience_pilot f),
    (EventForm.audience_staff f); cbn.
  all: split; [discriminate |].
  all: split;
    [repeat (apply NoDup_cons_2;
             [rewrite ?elem_of_cons, ?elem_of_nil; intros H;
              repeat (destruct H as [H | H]; [discriminate |]); done |]);
     apply NoDup_nil_2 |].
  all: split; [intros x; rewrite !elem_of_cons, !elem_of_nil; tauto |].
  all: rewrite !elem_of_cons, !elem_of_nil.
  all: repeat split; intros H; try tauto.
  all: exfalso; repeat (destruct H as [H | H]; try discriminate);
    try (destruct H as (? & ? & ?); discriminate); done.
Qed.

(** X12: for an event built by the form, the call returns a message for
    exactly the ticked audiences, and for all three when no box is
    ticked. *)
Theorem form_keys (f : EventForm.EventForm) :
  ∃ out,
    generate_messages (initial (EventForm.to_event f))
    = (Return out, initial (EventForm.to_event f))
    ∧ let none :=
        EventForm.audience_passenger f = false
        ∧ EventForm.audience_pilot f = false
        ∧ EventForm.audience_staff f = false in
      ("passenger" ∈ dom out ↔ EventForm.audience_passenger f = true ∨ none)
      ∧ ("pilot" ∈ dom out ↔ EventForm.audience_pilot f = true ∨ none)
      ∧ ("staff" ∈ dom out ↔ EventForm.audience_staff f = true ∨ none).
Proof.
  exists (outputs (initial (EventForm.to_event f))).
  split; [apply generate_messages_run |].
  destruct (to_event_audience_membership f) as (l & Hl & H1 & H2 & H3).
  cbn zeta in *.
  assert (∀ a, a ∈ all_audiences →
            (a ∈ dom (outputs (initial (EventForm.to_event f))) ↔ a ∈ l)) as H.
  { intros a Ha. rewrite dom_outputs, elem_of_list_to_set, list_elem_of_filter.
    unfold requested. cbn [initial st_event]. rewrite Hl. simpl. tauto. }
  rewrite !H by (apply all_audiences_spec; tauto). done.
Qed.

Lemma or_str_or_None x d : or_str (EventForm.or_None x) d = or_str (Some x) d.
Proof. by destruct x. Qed.

(** X13: the conversions [x or None] of [to_event] are invisible to the
    generator: it returns the same dict for the event [to_event] builds
    and for the event that binds every key to the string of the form as it
    is, empty or not. *)
Theorem to_event_or_None_invisible (f : EventForm.EventForm) :
  returned (generate_messages (initial (EventForm.to_event f)))
  = returned (generate_messages (initial (event_of_form_verbatim f))).
Proof.
  rewrite !returned_generate_messages. f_equal.
  assert (eta_change_minutes (EventForm.to_event f)
          = Some (EventForm.eta_change_minutes f)) as E.
  { unfold EventForm.to_event. cbn [eta_change_minutes]. f_equal.
    pose proof (strip_str_of_int_not_empty (EventForm.eta_change_minutes f)).
    by destruct (strip (str_of_int (EventForm.eta_change_minutes f))). }
  apply outputs_ext; [| | | reflexivity].
  all: unfold passenger_msg, pilot_msg, staff_msg, phrases_of.
  all: cbn [initial st_event st_RULES]; rewrite E.
  all: unfold EventForm.to_event, event_of_form_verbatim.
  all: cbn [event_type severity flight_no destination eta_change_minutes gate
            runway notes].
  all: by rewrite !or_str_or_None.
Qed.

(** ** The split-flap animation *)

Lemma length_append (a b : string) :
  String.length (a +:+ b) = (String.length a + String.length b)%nat.
Proof.
  induction a as [|c a IH]; [done |].
  rewrite append_cons. simpl. by rewrite IH.
Qed.

Lemma slice_to_all (j : nat) (text : string) :
  (String.length text ≤ j)%nat → slice_to j text = text.
Proof.
  revert j. induction text as [|c r IH]; intros j H.
  - by destruct j.
  - destruct j as [|j]; simpl in *; [lia |]. rewrite IH; [done | lia].
Qed.

Lemma slice_to_append (pre : string) (c : ascii) (suf : string) :
  slice_to (S (String.length pre)) (pre +:+ String c suf) = pre +:+ String c "".
Proof.
  induction pre as [|c' pre IH]; [done |].
  rewrite !append_cons.
  change (String c' (slice_to (S (String.length pre)) (pre +:+ String c suf))
          = String c' (pre +:+ String c "")).
  by rewrite IH.
Qed.

Lemma get_append (pre : string) (c : ascii) (suf : string) :
  String.get (String.length pre) (pre +:+ String c suf) = Some c.
Proof.
  induction pre as [|c' pre IH]; [done |].
  rewrite append_cons. simpl. exact IH.
Qed.

(** The first call only clears the widget and sets the first timer. *)
Lemma splitflap_animate_start widget text delay_ms :
  splitflap_animate widget text delay_ms
  = Return ({| content := ""; normal := true |}, Some (delay_ms * 1, 1%nat)).
Proof.
  unfold splitflap_animate, step.
  rewrite decide_False by lia. by destruct text.
Qed.

(** A timer call within the text shows one more character. *)
Lemma step_reveal pre c suf delay_ms widget :
  normal widget = true →
  step (pre +:+ String c suf) delay_ms (S (String.length pre)) widget
  = Return ({| content := pre +:+ String c ""; normal := true |},
            Some (delay_ms
                  * (if bool_decide (String c "" ∈ [" "; newline; tab])
                     then 3 else 1),
                  S (S (String.length pre)))).
Proof.
  intros Hn. unfold step.
  rewrite decide_False by (rewrite length_append; simpl; lia).
  rewrite get_append, slice_to_append. cbn [fmap option_fmap option_map].
  unfold delete_all, insert_end. rewrite Hn. by cbn.
Qed.

(** The timer call after the last character makes the widget read-only. *)
Lemma step_finish text delay_ms widget :
  step text delay_ms (S (String.length text)) widget
  = Return (configure_state false widget, None).
Proof. unfold step. by rewrite decide_True by lia. Qed.

Lemma run_timers_from suf : ∀ pre widget pause fuel delay_ms,
  normal widget = true → content widget = pre →
  (String.length suf < fuel)%nat →
  run_timers fuel (pre +:+ suf) delay_ms widget
    (Some (pause, S (String.length pre)))
  = Some (Return ({| content := pre +:+ suf; normal := false |},
                  frames_from delay_ms pause pre suf)).
Proof.
  induction suf as [|c suf IH]; intros pre widget pause fuel delay_ms Hn Hc Hf.
  - destruct fuel as [|fuel]; [simpl in Hf; lia |].
    rewrite append_empty_r. cbn [run_timers].
    rewrite step_finish. subst pre. by destruct fuel.
  - destruct fuel as [|fuel]; [simpl in Hf; lia |].
    cbn [run_timers]. rewrite step_reveal by done.
    replace (pre +:+ String c suf) with ((pre +:+ String c "") +:+ suf)
      by by rewrite append_assoc.
    replace (S (String.length pre)) with (String.length (pre +:+ String c ""))
      by (rewrite length_append; simpl; lia).
    rewrite IH; [done | done | done | simpl in Hf; lia].
Qed.

Lemma animation_run fuel widget text delay_ms :
  (String.length text < fuel)%nat →
  animation fuel widget text delay_ms
  = Some (Return ({| content := text; normal := false |},
                  frames_from delay_ms (delay_ms * 1) "" text)).
Proof.
  intros Hf. unfold animation. rewrite splitflap_animate_start.
  by apply (run_timers_from text "").
Qed.

Lemma frames_from_length delay_ms suf : ∀ pause pre,
  length (frames_from delay_ms pause pre suf) = S (String.length suf).
Proof.
  induction suf as [|c suf IH]; intros pause pre; [done |].
  cbn [frames_from length String.length]. by rewrite IH.
Qed.

Lemma frames_from_cons delay_ms pause pre c suf :
  frames_from delay_ms pause pre (String c suf)
  = (pause, pre +:+ String c "")
    :: frames_from delay_ms
         (delay_ms
          * (if bool_decide (String c "" ∈ [" "; newline; tab]) then 3 else 1))
         (pre +:+ String c "") suf.
Proof. reflexivity. Qed.

Lemma frames_from_texts delay_ms suf : ∀ pause pre,
  (frames_from delay_ms pause pre suf).*2
  = (λ j, slice_to j (pre +:+ suf))
    <$> seq (S (String.length pre)) (S (String.length suf)).
Proof.
  induction suf as [|c suf IH]; intros pause pre.
  - rewrite append_empty_r.
    change ([pre] = [slice_to (S (String.length pre)) pre]).
    by rewrite slice_to_all by lia.
  - rewrite frames_from_cons, fmap_cons, IH.
    change (String.length (String c suf)) with (S (String.length suf)).
    rewrite <- (cons_seq (S (String.length suf))), fmap_cons.
    rewrite slice_to_append, append_assoc.
    replace (String.length (pre +:+ String c "")) with (S (String.length pre))
      by (rewrite length_append; simpl; lia).
    reflexivity.
Qed.

Lemma frames_from_pauses delay_ms suf : ∀ pause pre,
  foldr Z.add 0 (frames_from delay_ms pause pre suf).*1
  = pause + delay_ms * (Z.of_nat (String.length suf)
                        + 2 * Z.of_nat (count_flips suf)).
Proof.
  induction suf as [|c suf IH]; intros pause pre.
  - cbn. lia.
  - rewrite frames_from_cons, fmap_cons. cbn [foldr fst]. rewrite IH.
    cbn [String.length count_flips]. case_bool_decide; lia.
Qed.

(** X14: whatever the widget holds and whether or not it is read-only,
    the animation ends after [len(text) + 1] timer calls, without an
    exception, with the whole text on the widget and the widget
    read-only. *)
Theorem animation_ends_with_text fuel widget text delay_ms :
  (String.length text < fuel)%nat →
  ∃ final frames,
    animation fuel widget text delay_ms = Some (Return (final, frames))
    ∧ content final = text ∧ normal final = false
    ∧ length frames = S (String.length text).
Proof.
  intros Hf. eexists _, _. split; [by apply animation_run |].
  split; [done |]. split; [done |]. apply frames_from_length.
Qed.

Lemma animation_ends_with_text_witness :
  ∃ final frames,
    animation 3 {| content := "old"; normal := false |} "A7" 10
    = Some (Return (final, frames))
    ∧ content final = "A7" ∧ normal final = false ∧ length frames = 3%nat.
Proof.
  apply (animation_ends_with_text 3 {| content := "old"; normal := false |} "A7" 10).
  simpl. lia.
Defined.

(** X15: the text is revealed one character at a time: after the j-th
    timer call the widget shows [text[:j]], for j from 1 to
    [len(text) + 1]. *)
Theorem animation_reveals_prefixes fuel widget text delay_ms :
  (String.length text < fuel)%nat →
  ∃ final frames,
    animation fuel widget text delay_ms = Some (Return (final, frames))
    ∧ frames.*2 = (λ j, slice_to j text) <$> seq 1 (S (String.length text)).
Proof.
  intros Hf. eexists _, _. split; [by apply animation_run |].
  apply (frames_from_texts delay_ms text (delay_ms * 1) "").
Qed.

Lemma animation_reveals_prefixes_witness :
  ∃ final frames,
    animation 3 {| content := "old"; normal := false |} "A7" 10
    = Some (Return (final, frames))
    ∧ frames.*2 = ["A"; "A7"; "A7"].
Proof.
  apply (animation_reveals_prefixes 3 {| content := "old"; normal := false |} "A7" 10).
  simpl. lia.
Defined.

(** X16: the pauses of an animation add up to [delay_ms] times the length
    of the text plus one, plus twice [delay_ms] for every space, newline
    and tab of the text. *)
Theorem animation_total_pause fuel widget text delay_ms :
  (String.length text < fuel)%nat →
  ∃ final frames,
    animation fuel widget text delay_ms = Some (Return (final, frames))
    ∧ foldr Z.add 0 frames.*1
      = delay_ms * (Z.of_nat (String.length text) + 1
                    + 2 * Z.of_nat (count_flips text)).
Proof.
  intros Hf. eexists _, _. split; [by apply animation_run |].
  rewrite frames_from_pauses. lia.
Qed.

Lemma animation_total_pause_witness :
  ∃ final frames,
    animation 5 {| content := ""; normal := true |} "to A" 10
    = Some (Return (final, frames))
    ∧ foldr Z.add 0 frames.*1 = 70.
Proof.
  apply (animation_total_pause 5 {| content := ""; normal := true |} "to A" 10).
  simpl. lia.
Defined.

(** ** The Generate button *)

Lemma message_for_not_empty s a : message_for s a ≠ "".
Proof.
  unfold message_for, pick_message. repeat case_decide.
  - rewrite passenger_msg_unfold. discriminate.
  - destruct (pilot_msg_unfold s) as [p0' ->].
    apply append_not_empty_r. discriminate.
  - rewrite staff_msg_unfold. discriminate.
Qed.

(** The text [on_generate] puts on the panel of an audience. *)
Lemma panel_text_not_empty s a :
  a ∈ all_audiences →
  default "" (outputs s !! a) ≠ "" ↔ a ∈ requested s.
Proof.
  intros Ha. rewrite outputs_lookup.
  destruct (decide (a ∈ requested s ∧ a ∈ all_audiences)) as [[H _] | H]; simpl.
  - split; [done |]. intros _. apply message_for_not_empty.
  - split; [done |]. intros Hreq. destruct H. done.
Qed.

(** ** Every configured phrase is used *)

Lemma passenger_msg_slots s :
  let p := phrases_of s "passenger" in
  contains (phrase_at p 0 "an operational delay") (passenger_msg s)
  ∧ contains (phrase_at p 1 "") (passenger_msg s)
  ∧ contains (phrase_at p 2 "") (passenger_msg s).
Proof.
  cbn zeta. rewrite passenger_msg_unfold. unfold passenger_fstring.
  repeat split; segment.
Qed.

Lemma staff_msg_slots s :
  let p := phrases_of s "staff" in
  contains (phrase_at p 0 "coordinate impacted teams") (staff_msg s)
  ∧ contains (phrase_at p 1 "notify affected parties") (staff_msg s).
Proof.
  cbn zeta. rewrite staff_msg_unfold. unfold staff_fstring.
  repeat split; segment.
Qed.

Lemma static_pilot_msg_slots e :
  let p := phrases_of (initial e) "pilot" in
  contains (phrase_at p 0 "operational delay in effect") (pilot_msg (initial e))
  ∧ contains (phrase_at p 1 "") (pilot_msg (initial e)).
Proof.
  cbn zeta.
  rewrite pilot_msg_unfold_visible by apply static_pilot_phrase_visible.
  unfold pilot_fstring. repeat split; segment.
Qed.

Ltac use_slot Hp :=
  rewrite ?elem_of_cons, ?elem_of_nil in Hp;
  repeat (destruct Hp as [-> | Hp]; [assumption |]);
  by destruct Hp.

Ltac static_list H :=
  match type of H with
  | _ = ?rhs =>
      let l := eval vm_compute in rhs in
      replace rhs with l in H by (vm_compute; reflexivity)
  end.

(** X18: with the static table no configured phrase is dropped: for every
    event, each phrase the table lists for the event's type and an
    audience appears in the message of that audience. *)
Theorem every_configured_phrase_is_used e a p :
  a ∈ all_audiences → a ∈ requested (initial e) →
  p ∈ phrases_of (initial e) a →
  ∃ out m,
    generate_messages (initial e) = (Return out, initial e)
    ∧ out !! a = Some m ∧ contains p m.
Proof.
  intros Ha Hreq Hp.
  exists (outputs (initial e)), (message_for (initial e) a).
  split; [apply generate_messages_run |].
  split; [by apply outputs_requested |].
  destruct (passenger_msg_slots (initial e)) as (P0 & P1 & P2).
  destruct (static_pilot_msg_slots e) as (G0 & G1).
  destruct (staff_msg_slots (initial e)) as (S0 & S1).
  cbn zeta in *. unfold message_for, pick_message.
  apply all_audiences_spec in Ha as [-> | [-> | ->]].
  - rewrite decide_True by done.
    destruct (static_phrases_cases e "passenger")
      as [[_ H] | [[_ H] | [[_ H] | [_ H]]]];
      try static_list H; rewrite H in Hp, P0, P1, P2;
      change (phrase_at ?l 0 ?d) with (default d (l !! 0%nat)) in P0;
      change (phrase_at ?l 1 ?d) with (default d (l !! 1%nat)) in P1;
      change (phrase_at ?l 2 ?d) with (default d (l !! 2%nat)) in P2;
      cbn [default lookup list_lookup] in P0, P1, P2; use_slot Hp.
  - rewrite decide_False by discriminate. rewrite decide_True by done.
    destruct (static_phrases_cases e "pilot")
      as [[_ H] | [[_ H] | [[_ H] | [_ H]]]];
      try static_list H; rewrite H in Hp, G0, G1;
      change (phrase_at ?l 0 ?d) with (default d (l !! 0%nat)) in G0;
      change (phrase_at ?l 1 ?d) with (default d (l !! 1%nat)) in G1;
      cbn [default lookup list_lookup] in G0, G1; use_slot Hp.
  - rewrite !decide_False by discriminate.
    destruct (static_phrases_cases e "staff")
      as [[_ H] | [[_ H] | [[_ H] | [_ H]]]];
      try static_list H; rewrite H in Hp, S0, S1;
      change (phrase_at ?l 0 ?d) with (default d (l !! 0%nat)) in S0;
      change (phrase_at ?l 1 ?d) with (default d (l !! 1%nat)) in S1;
      cbn [default lookup list_lookup] in S0, S1; use_slot Hp.
Qed.

Lemma every_configured_phrase_is_used_witness :
  ∃ out m,
    generate_messages (initial weather_AI320) = (Return out, initial weather_AI320)
    ∧ out !! "passenger" = Some m
    ∧ contains "we appreciate your patience" m.
Proof.
  apply (every_configured_phrase_is_used weather_AI320 "passenger"
           "we appreciate your patience").
  - by left.
  - by left.
  - do 2 right. by left.
Defined.

(** * The window: Generate and the timers *)

Section window.
Import AirportApp.

Lemma widget_of_with_widget p w self : widget_of p (with_widget p w self) = w.
Proof. by destruct p. Qed.

Lemma widget_of_with_widget_ne p q w self :
  p ≠ q → widget_of q (with_widget p w self) = widget_of q self.
Proof. by destruct p, q. Qed.

Lemma pending_with_widget p w self : pending (with_widget p w self) = pending self.
Proof. by destruct p. Qed.

Lemma vars_with_widget p w self : vars (with_widget p w self) = vars self.
Proof. by destruct p. Qed.

Lemma errors_with_widget p w self :
  errors_shown (with_widget p w self) = errors_shown self.
Proof. by destruct p. Qed.

Lemma widget_of_with_pending p l self :
  widget_of p (with_pending l self) = widget_of p self.
Proof. by destruct p. Qed.

Lemma slice_to_split (j : nat) (text : string) :
  (j < String.length text)%nat →
  ∃ pre c suf,
    text = pre +:+ String c suf ∧ String.length pre = j ∧ slice_to j text = pre.
Proof.
  revert j. induction text as [|c r IH]; intros j Hj; [simpl in Hj; lia |].
  destruct j as [|j].
  - by exists "", c, r.
  - destruct (IH j) as (pre & c' & suf & -> & Hlen & Hs); [simpl in Hj; lia |].
    exists (String c pre), c', suf. rewrite append_cons.
    split; [done |]. split; [simpl; by rewrite Hlen |].
    change (String c (slice_to j (pre +:+ String c' suf)) = String c pre).
    by rewrite Hs.
Qed.

Lemma timers_for_app p l1 l2 :
  timers_for p (l1 ++ l2) = (timers_for p l1 ++ timers_for p l2)%list.
Proof. apply filter_app. Qed.

Lemma timers_for_cons p t l :
  timers_for p (t :: l)
  = if decide (t_panel t = p) then t :: timers_for p l else timers_for p l.
Proof. unfold timers_for. rewrite filter_cons. by case_decide. Qed.

Lemma all_calls_left_app l1 l2 :
  all_calls_left (l1 ++ l2) = (all_calls_left l1 + all_calls_left l2)%nat.
Proof.
  induction l1 as [|t l1 IH]; [done |].
  cbn [app all_calls_left foldr]. fold (all_calls_left (l1 ++ l2)).
  fold (all_calls_left l1). rewrite IH. lia.
Qed.

(** A panel keeps settling when its widget and its timers stay the same. *)
Lemma panel_settling_ext text d p self self' :
  widget_of p self' = widget_of p self →
  timers_for p (pending self') = timers_for p (pending self) →
  panel_settling text d p self → panel_settling text d p self'.
Proof. unfold panel_settling. by intros -> ->. Qed.

(** Making the call of a pending timer of a settling window: the call
    returns, the window keeps settling and one call less is left. *)
Lemma fire_settling target d self k t :
  settling target d self → pending self !! k = Some t →
  ∃ self',
    fire k self = Some (Return tt, self')
    ∧ settling target d self'
    ∧ vars self' = vars self ∧ errors_shown self' = errors_shown self
    ∧ (all_calls_left (pending self') + 1)%nat = all_calls_left (pending self).
Proof.
  intros Hs Hk. unfold fire. rewrite Hk.
  destruct t as [tpause p ttext tdelay i0]. cbn [t_panel t_text t_delay_ms t_index].
  pose proof (take_drop_middle _ _ _ Hk) as Hl.
  set (l1 := take k (pending self)) in *.
  set (l2 := drop (S k) (pending self)) in *.
  rewrite delete_take_drop. fold l1 l2.
  destruct (Hs p) as [(pause & i & Hi & Ht & Hw) | [Ht _]];
    rewrite <- Hl, timers_for_app, timers_for_cons in Ht;
    rewrite decide_True in Ht by done; [| by destruct (timers_for p l1)].
  assert (timers_for p l1 = [] ∧ timers_for p l2 = []
          ∧ tpause = pause ∧ ttext = target p ∧ tdelay = d ∧ i0 = i)
    as (Hl1 & Hl2 & -> & -> & -> & ->).
  { destruct (timers_for p l1) as [|x l1'].
    - simpl in Ht. by injection Ht as -> -> -> -> ->.
    - simpl in Ht. injection Ht as _ Ht. by destruct l1'. }
  assert (∀ q, q ≠ p →
            timers_for q (l1 ++ l2) = timers_for q (pending self)) as Hother.
  { intros q Hq. rewrite <- Hl, !timers_for_app, timers_for_cons.
    by rewrite decide_False by (intros ?; by apply Hq). }
  unfold on_panel.
  rewrite widget_of_with_pending, Hw.
  destruct (decide (i = S (String.length (target p)))) as [-> | Hne].
  - (* the last call: the panel comes to rest *)
    rewrite step_finish. eexists. split; [reflexivity |].
    split; [| split; [| split]].
    + intros q. destruct (decide (q = p)) as [-> | Hq].
      * right. rewrite widget_of_with_widget, pending_with_widget.
        cbn [pending with_pending]. rewrite timers_for_app, Hl1, Hl2.
        split; [done |]. unfold configure_state. cbn [content].
        replace (S (String.length (target p)) - 1)%nat
          with (String.length (target p)) by lia.
        by rewrite slice_to_all.
      * apply (panel_settling_ext _ _ _ self); [| | apply Hs].
        -- rewrite widget_of_with_widget_ne by done.
           apply widget_of_with_pending.
        -- rewrite pending_with_widget. by apply Hother.
    + by rewrite vars_with_widget.
    + by rewrite errors_with_widget.
    + rewrite pending_with_widget. cbn [pending with_pending].
      rewrite <- Hl, !all_calls_left_app. cbn [all_calls_left foldr].
      fold (all_calls_left l2). unfold calls_left. simpl. lia.
  - (* a call within the text: one more character *)
    destruct (slice_to_split (i - 1) (target p)) as (pre & c & suf & HT & Hlen & Hpre);
      [lia |].
    assert (i = S (String.length pre)) as Ei by lia.
    rewrite Hpre, Ei, HT.
    rewrite step_reveal by done.
    eexists. split; [reflexivity |].
    split; [| split; [| split]].
    + intros q. destruct (decide (q = p)) as [-> | Hq].
      * left. exists (d * (if bool_decide (String c "" ∈ [" "; newline; tab])
                           then 3 else 1)), (S (S (String.length pre))).
        rewrite <- HT. split; [lia |].
        rewrite widget_of_with_pending, widget_of_with_widget.
        cbn [pending with_pending]. rewrite pending_with_widget.
        cbn [pending with_pending].
        rewrite !timers_for_app, Hl1, Hl2, timers_for_cons.
        rewrite decide_True by done. split; [done |]. f_equal.
        replace (S (S (String.length pre)) - 1)%nat with (S (String.length pre)) by lia.
        rewrite HT. by rewrite slice_to_append.
      * apply (panel_settling_ext _ _ _ self); [| | apply Hs].
        -- rewrite widget_of_with_pending, widget_of_with_widget_ne by done.
           apply widget_of_with_pending.
        -- cbn [pending with_pending]. rewrite pending_with_widget.
           cbn [pending with_pending].
           rewrite timers_for_app, timers_for_cons.
           rewrite decide_False by (intros ?; by apply Hq).
           change (timers_for q []) with (@nil Timer).
           rewrite app_nil_r. by apply Hother.
    + cbn [vars with_pending]. by rewrite vars_with_widget.
    + cbn [errors_shown with_pending]. by rewrite errors_with_widget.
    + cbn [pending with_pending]. rewrite pending_with_widget.
      cbn [pending with_pending].
      rewrite <- Hl, !all_calls_left_app. cbn [all_calls_left foldr].
      fold (all_calls_left l2). unfold calls_left.
      cbn [t_text t_index]. rewrite <- HT. lia.
Qed.

(** Whatever the order of the calls, no call raises and the window keeps
    settling. *)
Lemma run_settling target d sched : ∀ self r self2,
  settling target d self → run sched self = Some (r, self2) →
  r = Return tt ∧ settling target d self2
  ∧ vars self2 = vars self ∧ errors_shown self2 = errors_shown self.
Proof.
  induction sched as [|k sched IH]; intros self r self2 Hs Hrun.
  - simpl in Hrun. by injection Hrun as <- <-.
  - cbn [run] in Hrun.
    destruct (pending self !! k) as [t|] eqn:Hk.
    + destruct (fire_settling target d self k t Hs Hk)
        as (self' & Hf & Hs' & Hv & He & _).
      rewrite Hf in Hrun.
      destruct (IH self' r self2 Hs' Hrun) as (-> & ? & -> & ->). done.
    + unfold fire in Hrun. by rewrite Hk in Hrun.
Qed.

(** The main loop can serve every pending timer. *)
Lemma settling_drains target d : ∀ n self,
  settling target d self → all_calls_left (pending self) = n →
  ∃ sched self2, run sched self = Some (Return tt, self2) ∧ pending self2 = [].
Proof.
  induction n as [|n IH]; intros self Hs Hn.
  - destruct (pending self) as [|t l] eqn:Hp.
    + by exists [], self.
    + destruct (fire_settling target d self 0 t Hs) as (? & _ & _ & _ & _ & H);
        [by rewrite Hp | rewrite Hp in H; lia].
  - destruct (pending self) as [|t l] eqn:Hp.
    + by exists [], self.
    + destruct (fire_settling target d self 0 t Hs)
        as (self' & Hf & Hs' & _ & _ & H); [by rewrite Hp |].
      destruct (IH self' Hs') as (sched & self2 & Hrun & Hend);
        [rewrite Hp in H; lia |].
      exists (0%nat :: sched), self2. cbn [run]. by rewrite Hf.
Qed.

(** A settling window with no pending timer is at rest. *)
Lemma settling_at_rest target d self p :
  settling target d self → pending self = [] →
  widget_of p self = {| content := target p; normal := false |}.
Proof.
  intros Hs Hp. destruct (Hs p) as [(pause & i & _ & Ht & _) | [_ H]]; [| done].
  by rewrite Hp in Ht.
Qed.

(** [set_text] on a panel that has no pending timer. *)
Lemma set_text_settling p text self :
  timers_for p (pending self) = [] →
  ∃ self',
    set_text p text self = (Return tt, self')
    ∧ panel_settling text (if instant_mode (vars self) then 10 else 25) p self'
    ∧ (∀ q, q ≠ p →
         widget_of q self' = widget_of q self
         ∧ timers_for q (pending self') = timers_for q (pending self))
    ∧ vars self' = vars self ∧ errors_shown self' = errors_shown self.
Proof.
  intros Hp. unfold set_text. destruct (animated_mode (vars self)).
  - unfold on_panel. rewrite splitflap_animate_start.
    eexists. split; [reflexivity |]. split; [| split; [| split]].
    + left. eexists _, 1%nat. split; [lia |].
      rewrite widget_of_with_pending, widget_of_with_widget.
      cbn [pending with_pending]. rewrite pending_with_widget.
      rewrite timers_for_app, Hp, timers_for_cons.
      rewrite decide_True by done. split; [done |]. by destruct text.
    + intros q Hq. rewrite widget_of_with_pending.
      rewrite widget_of_with_widget_ne by done. split; [done |].
      cbn [pending with_pending]. rewrite pending_with_widget.
      rewrite timers_for_app, timers_for_cons.
      rewrite decide_False by (intros ?; by apply Hq).
      change (timers_for q []) with (@nil Timer). by rewrite app_nil_r.
    + cbn [vars with_pending]. by rewrite vars_with_widget.
    + cbn [errors_shown with_pending]. by rewrite errors_with_widget.
  - eexists. split; [reflexivity |]. split; [| split; [| split]].
    + right. rewrite widget_of_with_widget, pending_with_widget. done.
    + intros q Hq. rewrite widget_of_with_widget_ne by done.
      by rewrite pending_with_widget.
    + by rewrite vars_with_widget.
    + by rewrite errors_with_widget.
Qed.

Section generate.
Variable int : string → option Z.

(** After [on_generate], on a window with no pending timer, the window is
    settling towards the texts [msgs.get(audience, "")]. *)
Lemma on_generate_settling self form :
  pending self = [] →
  form_data int self = (Return form, self) →
  ∃ self1,
    on_generate int self = (Return tt, self1)
    ∧ settling
        (λ p, default "" (outputs (initial (EventForm.to_event form))
                          !! audience_of p))
        (if instant_mode (vars self) then 10 else 25) self1
    ∧ vars self1 = vars self ∧ errors_shown self1 = errors_shown self.
Proof.
  intros Hp Hform. unfold on_generate, mbind, UI_bind.
  rewrite Hform, generate_messages_run. cbn [fst].
  set (out := outputs (initial (EventForm.to_event form))).
  destruct (set_text_settling Passenger (default "" (out !! "passenger")) self)
    as (sa & -> & Ha & Hao & Hav & Hae); [by rewrite Hp |].
  destruct (set_text_settling Pilot (default "" (out !! "pilot")) sa)
    as (sb & -> & Hb & Hbo & Hbv & Hbe).
  { rewrite (proj2 (Hao Pilot ltac:(done))). by rewrite Hp. }
  destruct (set_text_settling Staff (default "" (out !! "staff")) sb)
    as (sc & -> & Hc & Hco & Hcv & Hce).
  { rewrite (proj2 (Hbo Staff ltac:(done))), (proj2 (Hao Staff ltac:(done))).
    by rewrite Hp. }
  rewrite Hbv, Hav in Hc. rewrite Hav in Hb.
  exists sc. split; [done |]. split; [| split; congruence].
  intros [ | | ]; cbn [audience_of].
  - apply (panel_settling_ext _ _ _ sb); [apply Hco; done | apply Hco; done |].
    apply (panel_settling_ext _ _ _ sa); [apply Hbo; done | apply Hbo; done |].
    exact Ha.
  - apply (panel_settling_ext _ _ _ sb); [apply Hco; done | apply Hco; done |].
    exact Hb.
  - exact Hc.
Qed.

(** X17: on a window with no pending timer and an ETA entry that is empty
    or that [int] accepts, pressing Generate returns without an error
    dialog, in the instant or the animated mode and whatever the panels
    held.  The main loop can then serve every timer; in whatever order it
    serves them no call raises, and once none is pending the three panels
    are read-only, each showing [msgs.get(audience, "")]: a message
    exactly when the box of its audience is ticked or no box is ticked at
    all. *)
Theorem on_generate_fills_panels self form out :
  pending self = [] →
  form_data int self = (Return form, self) →
  generate_messages (initial (EventForm.to_event form))
  = (Return out, initial (EventForm.to_event form)) →
  ∃ self1,
    on_generate int self = (Return tt, self1)
    ∧ errors_shown self1 = errors_shown self
    ∧ (∃ sched self2,
         run sched self1 = Some (Return tt, self2) ∧ pending self2 = [])
    ∧ (∀ sched r self2,
         run sched self1 = Some (r, self2) →
         r = Return tt
         ∧ errors_shown self2 = errors_shown self
         ∧ (pending self2 = [] →
            ∀ p, widget_of p self2
                 = {| content := default "" (out !! audience_of p);
                      normal := false |}))
    ∧ let none :=
        aud_passenger (vars self) = false
        ∧ aud_pilot (vars self) = false
        ∧ aud_staff (vars self) = false in
      (default "" (out !! "passenger") ≠ ""
       ↔ aud_passenger (vars self) = true ∨ none)
      ∧ (default "" (out !! "pilot") ≠ "" ↔ aud_pilot (vars self) = true ∨ none)
      ∧ (default "" (out !! "staff") ≠ "" ↔ aud_staff (vars self) = true ∨ none).
Proof.
  intros Hp Hform. rewrite generate_messages_run. intros [= <-].
  destruct (on_generate_settling self form Hp Hform)
    as (self1 & Hgen & Hs & Hv & He).
  exists self1. split; [done |]. split; [done |].
  split; [by eapply settling_drains |]. split.
  - intros sched r self2 Hrun.
    destruct (run_settling _ _ _ _ _ _ Hs Hrun) as (-> & Hs2 & _ & He2).
    split; [done |]. split; [congruence |].
    intros Hend p. by apply (settling_at_rest _ _ _ _ Hs2).
  - assert (EventForm.audience_passenger form = aud_passenger (vars self)
            ∧ EventForm.audience_pilot form = aud_pilot (vars self)
            ∧ EventForm.audience_staff form = aud_staff (vars self))
      as (E1 & E2 & E3).
    { unfold form_data in Hform.
      destruct (match eta_change (vars self) with "" => _ | _ => _ end);
        [| done].
      by injection Hform as <-. }
    destruct (to_event_audience_membership form) as (l & Hl & H1 & H2 & H3).
    cbn zeta in *. rewrite E1, E2, E3 in *.
    assert (requested (initial (EventForm.to_event form)) = l) as Hreq.
    { unfold requested. cbn [initial st_event]. by rewrite Hl. }
    rewrite !panel_text_not_empty by (apply all_audiences_spec; tauto).
    by rewrite Hreq.
Qed.

(** X19: with an ETA entry that is not empty and that [int] rejects,
    pressing Generate raises [ValueError] from [form_data], before the
    [try]: the generator is not called, no error dialog is shown, no timer
    is set and the panels keep what they showed. *)
Theorem on_generate_rejects_bad_eta self :
  eta_change (vars self) ≠ "" → int (eta_change (vars self)) = None →
  on_generate int self = (Raise ValueError, self).
Proof.
  intros Hne Hint. unfold on_generate, mbind, UI_bind, form_data.
  destruct (eta_change (vars self)); [done |]. by rewrite Hint.
Qed.

End generate.

Lemma on_generate_fills_panels_witness :
  ∃ self1 sched self2,
    on_generate int_rejects (stale_window "" true) = (Return tt, self1)
    ∧ run sched self1 = Some (Return tt, self2)
    ∧ pending self2 = []
    ∧ out_passenger self2 = {| content := ""; normal := false |}
    ∧ out_pilot self2
      = {| content := "expect delay due to weather in departure/arrival sector for AI-320. Severity: medium. monitor ATC advisory Runway: 09R. Gate: A7. ETA change: TBD. Notes: Thunderstorm cells near departure path.";
           normal := false |}.
Proof.
  edestruct (on_generate_fills_panels int_rejects (stale_window "" true))
    as (self1 & Hgen & _ & (sched & self2 & Hrun & Hend) & Hall & _).
  - reflexivity.
  - reflexivity.
  - apply generate_messages_run.
  - exists self1, sched, self2.
    destruct (Hall sched _ _ Hrun) as (_ & _ & Hrest).
    split; [exact Hgen |]. split; [exact Hrun |]. split; [exact Hend |].
    split.
    + etrans; [exact (Hrest Hend Passenger) | vm_compute; reflexivity].
    + etrans; [exact (Hrest Hend Pilot) | vm_compute; reflexivity].
Defined.

Lemma on_generate_rejects_bad_eta_witness :
  on_generate int_rejects (stale_window "soon" true)
  = (Raise ValueError, stale_window "soon" true).
Proof.
  apply on_generate_rejects_bad_eta; [discriminate | reflexivity].
Defined.

(** Why X17 asks for a window with no pending timer: the timers of an
    earlier press are never cancelled.  Pressing Generate again after the
    first animation of the pilot panel has made three calls, and serving
    the timers first come first served, leaves the pilot message three
    characters short on a read-only panel. *)
Example second_press_during_animation :
  ∃ w1 w2 w3 w4,
    on_generate int_rejects (stale_window "" true) = (Return tt, w1)
    ∧ run [0; 1; 0; 0; 0]%nat w1 = Some (Return tt, w2)
    ∧ on_generate int_rejects w2 = (Return tt, w3)
    ∧ run (repeat 0%nat 387) w3 = Some (Return tt, w4)
    ∧ pending w4 = []
    ∧ out_pilot w4
      = {| content := "expect delay due to weather in departure/arrival sector for AI-320. Severity: medium. monitor ATC advisory Runway: 09R. Gate: A7. ETA change: TBD. Notes: Thunderstorm cells near departure pa";
           normal := false |}.
Proof.
  eexists _, _, _, _.
  split; [vm_compute; reflexivity |].
  split; [vm_compute; reflexivity |].
  split; [vm_compute; reflexivity |].
  split; [vm_compute; reflexivity |].
  split; vm_compute; reflexivity.
Qed.

End window.
